(** * Trading Hydra: the safety-and-allocation control loop

    A shallow embedding of the control loop of [src/trading_hydra]:
    the durable state store ([core/state.py]), the halt manager
    ([core/halt.py]), the health monitor ([core/health.py]), the risk
    helpers ([core/risk.py]), the kill-switch ([services/exitbot.py]),
    the budget allocator ([services/portfolio.py]) and the orchestrator
    ([orchestrator.py]).

    Conventions of the embedding.
    - Python numbers (YAML and JSON ints and floats) are exact rationals
      [Q]; rounding of binary floating point is not modelled.
    - Instants are rationals, in seconds since the epoch.  Every modelled
      operation takes the instant [now] at which it runs and is treated
      as instantaneous.
    - The state store is a finite map from keys to JSON values.
    - A Python exception that the code does not catch is the result
      [None] of an [option]-valued operation.
    - The logger is write-only for the modelled code and is left out.
    - What the Python runtime does with text (ISO-8601 rendering and
      parsing of instants, rendering of numbers) is a parameter of the
      development: the class [PyText]. *)

From Stdlib Require Import Ascii String QArith Lqa.
From stdpp Require Import gmap strings list fin_maps pretty.

Open Scope Q_scope.

(** ** JSON values and Python truthiness *)

Inductive value : Type :=
| VNull
| VBool (b : bool)
| VNum (q : Q)
| VStr (s : string).

(** [x < y] on rationals, as a boolean. *)
Definition Qlt_bool (x y : Q) : bool := negb (Qle_bool y x).

(** [bool(v)] *)
Definition truthy (v : value) : bool :=
  match v with
  | VNull => false
  | VBool b => b
  | VNum q => negb (Qeq_bool q 0)
  | VStr s => negb (String.eqb s "")
  end.

(** [v or d] *)
Definition py_or (v d : value) : value := if truthy v then v else d.

(** The number a value stands for in arithmetic and comparisons with
    numbers; [None] where Python raises [TypeError]. *)
Definition as_num (v : value) : option Q :=
  match v with
  | VNum q => Some q
  | VBool b => Some (if b then 1 else 0)
  | VNull | VStr _ => None
  end.

(** Python's [max(a, b)] and [min(a, b)]: the first argument wins ties. *)
Definition py_max (a b : Q) : Q := if Qlt_bool a b then b else a.
Definition py_min (a b : Q) : Q := if Qlt_bool b a then b else a.

(** ** Text helpers *)

(** [s.replace("Z", "+00:00")] *)
Fixpoint replace_Z (s : string) : string :=
  match s with
  | EmptyString => EmptyString
  | String c s' =>
      if Ascii.eqb c "Z"%char then "+00:00" +:+ replace_Z s'
      else String c (replace_Z s')
  end.

(** [s.lower()], on ASCII letters. *)
Definition lower_ascii (c : ascii) : ascii :=
  let n := nat_of_ascii c in
  if (Nat.leb 65 n && Nat.leb n 90)%bool then ascii_of_nat (n + 32) else c.

Fixpoint lower (s : string) : string :=
  match s with
  | EmptyString => EmptyString
  | String c s' => String (lower_ascii c) (lower s')
  end.

(** [needle in s] *)
Fixpoint contains (needle s : string) : bool :=
  if String.prefix needle s then true
  else match s with
       | EmptyString => false
       | String _ s' => contains needle s'
       end.

(** [sep.join(l)] *)
Fixpoint join (sep : string) (l : list string) : string :=
  match l with
  | [] => ""
  | [x] => x
  | x :: rest => x +:+ sep +:+ join sep rest
  end.

Definition nl : string := String (ascii_of_nat 10) EmptyString.

(** ** Durable state store ([core/state.py]) *)

Definition get_state (st : gmap string value) (key : string) (default : value) : value :=
  match st !! key with
  | Some v => v
  | None => default
  end.

Definition set_state (key : string) (v : value) (st : gmap string value) : gmap string value :=
  <[key := v]> st.

Definition delete_state (key : string) (st : gmap string value) : gmap string value :=
  delete key st.

(** ** Risk helpers ([core/risk.py]) *)

Definition dollars_from_pct (base_amount pct : Q) : Q :=
  base_amount * (pct / 100).


Definition valid_budget (budget : option Q) : bool :=
  match budget with
  | None => false
  | Some b => Qlt_bool 0 b
  end.

(** ** Configuration ([config/bots.yaml], [config/settings.yaml])

    A field is [None] when its key is absent; the default of each
    [.get(key, default)] is applied where the code applies it.  An absent
    sub-dictionary behaves as an empty one, so nested dictionaries are
    flattened. *)

Record ExitbotConfig := {
  eb_enabled : option bool;
  eb_api_failure_halt : option bool;
  eb_max_daily_loss_halt : option bool;
  eb_cooloff_minutes : option Q
}.

Record PortfolioConfig := {
  pf_enabled : option bool;
  pf_momentum_bucket_pct : option Q;
  pf_options_bucket_pct : option Q;
  pf_crypto_bucket_pct : option Q;
  pf_per_bot_min_pct : option Q;
  pf_per_bot_max_pct : option Q
}.

Record BotConfig := {
  bot_id : option string;
  bot_enabled : option bool;
  bot_max_trades_per_day : option Q;
  bot_max_concurrent_positions : option Q
}.

Record BotsConfig := {
  exitbot : ExitbotConfig;
  portfoliobot : PortfolioConfig;
  momentum_bots : list BotConfig;
  optionsbot : BotConfig;
  cryptobot : BotConfig
}.

Record Settings := {
  risk_global_max_daily_loss_pct : option Q;
  health_max_api_failures_in_window : option Q;
  health_max_price_staleness_seconds : option Q
}.

(** The outcome of [load_bots_config(); load_settings()]: the text of
    the exception raised, or both documents. *)
Inductive ConfigLoad :=
| ConfigError (e : string)
| ConfigOk (config : BotsConfig) (settings : Settings).

Definition getd {A} (o : option A) (d : A) : A := default d o.

(** ** Brokerage collaborator ([services/alpaca_client.py]), as consumed *)

Record FlattenResult := { fl_success : bool; fl_error : string }.

Record Account := { acct_equity : Q; acct_status : string }.

Inductive FetchOutcome :=
| Fetched (a : Account)
| FetchRaised (e : string).

Record Alpaca := {
  has_credentials : bool;
  flatten : FlattenResult;
  (** the outcome of the k-th call of [get_account()] in a step *)
  get_account : nat -> FetchOutcome
}.

(** ** What the Python runtime does with text

    [isoformat t] is [datetime.isoformat()] of the instant [t];
    [fromisoformat s] is [datetime.fromisoformat(s)] as an instant, [None]
    where it raises; [str_num] renders a number in an f-string, [fmt_0f]
    and [fmt_2f] render it with the formats [.0f] and [.2f]. *)

Class PyText := {
  isoformat : Q -> string;
  fromisoformat : string -> option Q;
  str_num : Q -> string;
  fmt_0f : Q -> string;
  fmt_2f : Q -> string
}.

(** ** Halt manager ([core/halt.py]) *)

Module HaltManager.
Section WithText.
Context `{PyText}.

Record HaltStatus := {
  active : bool;
  reason : value;
  halted_at : value;
  expires_at : value
}.

Definition set_halt (reason : string) (cooloff_minutes : Q) (now : Q)
    (st : gmap string value) : gmap string value :=
  let expires := now + cooloff_minutes * 60 in
  let st := set_state "halt.active" (VBool true) st in
  let st := set_state "halt.reason" (VStr reason) st in
  let st := set_state "halt.halted_at" (VStr (isoformat now +:+ "Z")) st in
  set_state "halt.expires_at" (VStr (isoformat expires +:+ "Z")) st.

Definition clear_halt (st : gmap string value) : gmap string value :=
  let st := delete_state "halt.active" st in
  let st := delete_state "halt.reason" st in
  let st := delete_state "halt.halted_at" st in
  delete_state "halt.expires_at" st.

(** The [try] block: a value that is not a string has no [replace], a
    string may fail to parse; the bare [except] swallows both. *)
Definition clear_if_expired (now : Q) (st : gmap string value)
    : bool * gmap string value :=
  let expires_str := get_state st "halt.expires_at" VNull in
  if negb (truthy expires_str) then (false, st)
  else
    match expires_str with
    | VStr s =>
        match fromisoformat (replace_Z s) with
        | Some expires =>
            if Qlt_bool expires now then (true, clear_halt st) else (false, st)
        | None => (false, st)
        end
    | _ => (false, st)
    end.

Definition is_halted (now : Q) (st : gmap string value)
    : bool * gmap string value :=
  let st := snd (clear_if_expired now st) in
  (truthy (py_or (get_state st "halt.active" (VBool false)) (VBool false)), st).

Definition get_status (st : gmap string value) : HaltStatus :=
  {| active := truthy (py_or (get_state st "halt.active" (VBool false)) (VBool false));
     reason := py_or (get_state st "halt.reason" (VStr "")) (VStr "");
     halted_at := get_state st "halt.halted_at" VNull;
     expires_at := get_state st "halt.expires_at" VNull |}.

End WithText.
End HaltManager.

(** ** Health monitor ([core/health.py]) *)

Module HealthMonitor.
Section WithText.
Context `{PyText}.

Record HealthSnapshot := {
  ok : bool;
  reason : string;
  api_failures : Q;
  last_price_tick : value;
  stale_seconds : Q
}.

Definition record_api_failure (error : string) (now : Q)
    (st : gmap string value) : option (gmap string value) :=
  count ← as_num (py_or (get_state st "health.api_failure_count" (VNum 0)) (VNum 0));
  let st := set_state "health.api_failure_count" (VNum (count + 1)) st in
  Some (set_state "health.last_api_failure" (VStr (isoformat now +:+ "Z")) st).

Definition record_price_tick (now : Q) (st : gmap string value)
    : gmap string value :=
  let st := set_state "health.last_price_tick" (VStr (isoformat now +:+ "Z")) st in
  set_state "health.api_failure_count" (VNum 0) st.

(** [stale_seconds] keeps its initial [0.0] when there is no tick, and
    when the [try] block raises. *)
Definition staleness (now : Q) (last_tick_str : value) : Q :=
  if truthy last_tick_str then
    match last_tick_str with
    | VStr s =>
        match fromisoformat (replace_Z s) with
        | Some last_tick => now - last_tick
        | None => 0
        end
    | _ => 0
    end
  else 0.

Definition get_snapshot (settings : Settings) (now : Q)
    (st : gmap string value) : option HealthSnapshot :=
  let max_failures := getd (health_max_api_failures_in_window settings) 5 in
  let stale_threshold := getd (health_max_price_staleness_seconds settings) 15 in
  let last_tick_str := get_state st "health.last_price_tick" VNull in
  let stale_seconds := staleness now last_tick_str in
  api_failures ← as_num (py_or (get_state st "health.api_failure_count" (VNum 0)) (VNum 0));
  if Qle_bool max_failures api_failures then
    Some {| ok := false;
            reason := "API failures (" +:+ str_num api_failures +:+ ") >= max ("
                      +:+ str_num max_failures +:+ ")";
            api_failures := api_failures;
            last_price_tick := last_tick_str;
            stale_seconds := stale_seconds |}
  else if truthy last_tick_str && Qlt_bool stale_threshold stale_seconds then
    Some {| ok := false;
            reason := "Data stale (" +:+ fmt_0f stale_seconds +:+ "s > "
                      +:+ str_num stale_threshold +:+ "s)";
            api_failures := api_failures;
            last_price_tick := last_tick_str;
            stale_seconds := stale_seconds |}
  else
    Some {| ok := true;
            reason := "OK";
            api_failures := api_failures;
            last_price_tick := last_tick_str;
            stale_seconds := stale_seconds |}.

End WithText.
End HealthMonitor.

(** ** Kill-switch ([services/exitbot.py]) *)

Module ExitBot.
Section WithText.
Context `{PyText}.

Record ExitBotResult := {
  should_continue : bool;
  is_halted : bool;
  halt_reason : value;
  equity : Q;
  pnl : Q
}.

(** The liquidation attempt after a health halt: a failed flatten is
    appended to the reason, absent credentials are only logged. *)
Definition flatten_after_health (alpaca : Alpaca) (reason : string) : string :=
  if has_credentials alpaca then
    if negb (fl_success (flatten alpaca))
    then reason +:+ " + FLATTEN_FAILED: " +:+ fl_error (flatten alpaca)
    else reason
  else reason.

(** The liquidation attempt after a loss halt: absent credentials are
    appended to the reason too. *)
Definition flatten_after_loss (alpaca : Alpaca) (reason : string) : string :=
  if has_credentials alpaca then
    if negb (fl_success (flatten alpaca))
    then reason +:+ " + FLATTEN_FAILED: " +:+ fl_error (flatten alpaca)
    else reason
  else reason +:+ " + CANNOT_FLATTEN: no credentials".

Definition run (load : ConfigLoad) (alpaca : Alpaca) (now : Q)
    (equity day_start_equity : Q) (st : gmap string value)
    : option (ExitBotResult * gmap string value) :=
  match load with
  | ConfigError e =>
      Some ({| should_continue := false;
               is_halted := true;
               halt_reason := VStr ("Config load failed: " +:+ e);
               equity := equity;
               pnl := 0 |}, st)
  | ConfigOk config settings =>
      let exitbot_config := exitbot config in
      if negb (getd (eb_enabled exitbot_config) true) then
        let pnl := equity - day_start_equity in
        Some ({| should_continue := true;
                 is_halted := false;
                 halt_reason := VStr "";
                 equity := equity;
                 pnl := pnl |}, st)
      else
        let '(halted, st) := HaltManager.is_halted now st in
        if halted then
          let status := HaltManager.get_status st in
          Some ({| should_continue := false;
                   is_halted := true;
                   halt_reason := HaltManager.reason status;
                   equity := equity;
                   pnl := 0 |}, st)
        else
          health ← HealthMonitor.get_snapshot settings now st;
          let cooloff := getd (eb_cooloff_minutes exitbot_config) 60 in
          if negb (HealthMonitor.ok health)
             && getd (eb_api_failure_halt exitbot_config) true then
            let reason := "HEALTH_FAIL: " +:+ HealthMonitor.reason health in
            let st := HaltManager.set_halt reason cooloff now st in
            Some ({| should_continue := false;
                     is_halted := true;
                     halt_reason := VStr (flatten_after_health alpaca reason);
                     equity := equity;
                     pnl := 0 |}, st)
          else
            let pnl := equity - day_start_equity in
            let max_loss_pct := getd (risk_global_max_daily_loss_pct settings) 1 in
            let max_loss := dollars_from_pct day_start_equity max_loss_pct in
            if Qle_bool pnl (- max_loss)
               && getd (eb_max_daily_loss_halt exitbot_config) true then
              let reason := "MAX_DAILY_LOSS: pnl=" +:+ fmt_2f pnl +:+ " <= -"
                            +:+ fmt_2f max_loss in
              let st := HaltManager.set_halt reason cooloff now st in
              Some ({| should_continue := false;
                       is_halted := true;
                       halt_reason := VStr (flatten_after_loss alpaca reason);
                       equity := equity;
                       pnl := pnl |}, st)
            else
              Some ({| should_continue := true;
                       is_halted := false;
                       halt_reason := VStr "";
                       equity := equity;
                       pnl := pnl |}, st)
  end.

End WithText.
End ExitBot.

(** ** Budget allocator ([services/portfolio.py]) *)

Module PortfolioBot.

Record PortfolioBotResult := {
  budgets_set : bool;
  daily_risk : Q;
  enabled_bots : list string;
  error : string
}.

Definition budget_key (bot_id field : string) : string :=
  "budgets." +:+ bot_id +:+ "." +:+ field.

Definition bots_key (bot_id field : string) : string :=
  "bots." +:+ bot_id +:+ "." +:+ field.

(** The six writes made for one worker, in the order of the source. *)
Definition persist_budget (bot_id : string) (max_daily_loss : Q)
    (max_trades_per_day max_concurrent_positions : Q) (enabled : bool)
    (st : gmap string value) : gmap string value :=
  let st := set_state (budget_key bot_id "max_daily_loss") (VNum max_daily_loss) st in
  let st := set_state (budget_key bot_id "max_open_risk") (VNum (max_daily_loss * 2)) st in
  let st := set_state (budget_key bot_id "max_trades_per_day") (VNum max_trades_per_day) st in
  let st := set_state (budget_key bot_id "max_concurrent_positions")
              (VNum max_concurrent_positions) st in
  let st := set_state (bots_key bot_id "allowed") (VBool true) st in
  set_state (bots_key bot_id "enabled") (VBool enabled) st.

(** [[b for b in momentum_bots if b.get("enabled", False)]] *)
Definition enabled_momentum (momentum_bots : list BotConfig) : list BotConfig :=
  List.filter (fun b => getd (bot_enabled b) false) momentum_bots.

(** [max(per_min, min(per_max, mom_bucket / num_mom))] *)
Definition mom_each (per_min per_max mom_bucket : Q) (num_mom : nat) : Q :=
  py_max per_min (py_min per_max (mom_bucket / inject_Z (Z.of_nat num_mom))).

(** The loop [for bot in momentum_bots]. *)
Fixpoint allocate_momentum (bots : list BotConfig) (each : Q)
    (enabled_bots : list string) (st : gmap string value)
    : list string * gmap string value :=
  match bots with
  | [] => (enabled_bots, st)
  | bot :: rest =>
      let id := getd (bot_id bot) "" in
      let st := persist_budget id each
                  (getd (bot_max_trades_per_day bot) 5)
                  (getd (bot_max_concurrent_positions bot) 2)
                  (getd (bot_enabled bot) false) st in
      allocate_momentum rest each
        (if getd (bot_enabled bot) false then enabled_bots ++ [id] else enabled_bots)
        st
  end.

(** A single-worker service (options, crypto): its whole bucket when it
    is enabled, nothing written otherwise. *)
Definition allocate_single (bot : BotConfig) (default_id : string)
    (bucket : Q) (default_trades default_positions : Q)
    (enabled_bots : list string) (st : gmap string value)
    : list string * gmap string value :=
  if getd (bot_enabled bot) false then
    let id := getd (bot_id bot) default_id in
    (enabled_bots ++ [id],
     persist_budget id bucket
       (getd (bot_max_trades_per_day bot) default_trades)
       (getd (bot_max_concurrent_positions bot) default_positions)
       true st)
  else (enabled_bots, st).

(** The figures computed before any write. *)
Record Plan := {
  plan_daily_risk : Q;
  mom_bucket : Q;
  opt_bucket : Q;
  cry_bucket : Q;
  per_min : Q;
  per_max : Q
}.

Definition plan (config : BotsConfig) (settings : Settings)
    (day_start_equity : Q) : Plan :=
  let portfolio_config := portfoliobot config in
  let max_loss_pct := getd (risk_global_max_daily_loss_pct settings) 1 in
  let daily_risk := dollars_from_pct day_start_equity max_loss_pct in
  {| plan_daily_risk := daily_risk;
     mom_bucket := daily_risk * (getd (pf_momentum_bucket_pct portfolio_config) 50 / 100);
     opt_bucket := daily_risk * (getd (pf_options_bucket_pct portfolio_config) 50 / 100);
     cry_bucket := daily_risk * (getd (pf_crypto_bucket_pct portfolio_config) 25 / 100);
     per_min := daily_risk * (getd (pf_per_bot_min_pct portfolio_config) 10 / 100);
     per_max := daily_risk * (getd (pf_per_bot_max_pct portfolio_config) 50 / 100) |}.

Definition num_mom (config : BotsConfig) : nat :=
  Nat.max 1 (length (enabled_momentum (momentum_bots config))).

Definition run (load : ConfigLoad) (equity : Q) (st : gmap string value)
    : option (PortfolioBotResult * gmap string value) :=
  match load with
  | ConfigError e =>
      Some ({| budgets_set := false; daily_risk := 0;
               enabled_bots := []; error := e |}, st)
  | ConfigOk config settings =>
      if negb (getd (pf_enabled (portfoliobot config)) true) then
        Some ({| budgets_set := false; daily_risk := 0;
                 enabled_bots := []; error := "" |}, st)
      else
        day_start_equity ←
          as_num (py_or (get_state st "day_start_equity" (VNum equity)) (VNum equity));
        let p := plan config settings day_start_equity in
        let each := mom_each (per_min p) (per_max p) (mom_bucket p) (num_mom config) in
        let '(enabled_bots, st) :=
          allocate_momentum (momentum_bots config) each [] st in
        let '(enabled_bots, st) :=
          allocate_single (optionsbot config) "opt_core" (opt_bucket p) 3 2
            enabled_bots st in
        let '(enabled_bots, st) :=
          allocate_single (cryptobot config) "crypto_core" (cry_bucket p) 5 3
            enabled_bots st in
        Some ({| budgets_set := true; daily_risk := plan_daily_risk p;
                 enabled_bots := enabled_bots; error := "" |}, st)
  end.

End PortfolioBot.

(** ** Loop orchestrator ([orchestrator.py]) *)

Module TradingOrchestrator.
Section WithText.
Context `{PyText}.

Record LoopResult := {
  success : bool;
  status : string;
  summary : string;
  timestamp : string
}.

(** How the retry loop of step 1 ends. *)
Inductive FetchEnd :=
| Break (equity : Q)           (* [break]: the account was accepted *)
| Return (error : string)      (* [return False, 0.0, 0.0, error] *)
| Exhausted.                   (* the range ran out with neither *)

(** What the retry loop did: how it ended, the number of calls of
    [get_account()] and the [time.sleep] waits, in seconds, in order. *)
Record FetchTrace := {
  fetch_end : FetchEnd;
  calls : nat;
  sleeps : list Z
}.

Definition max_retries : nat := 3.

(** [for attempt in range(max_retries)], from the attempts left. *)
Fixpoint fetch_account (alpaca : Alpaca) (attempts : list nat) : FetchTrace :=
  match attempts with
  | [] => {| fetch_end := Exhausted; calls := 0; sleeps := [] |}
  | attempt :: rest =>
      match get_account alpaca attempt with
      | Fetched account =>
          let equity := acct_equity account in
          if Qle_bool equity 0 then
            {| fetch_end := Return ("Invalid account equity: " +:+ str_num equity);
               calls := 1; sleeps := [] |}
          else {| fetch_end := Break equity; calls := 1; sleeps := [] |}
      | FetchRaised e =>
          let error := "Failed to fetch account (attempt "
                       +:+ pretty (attempt + 1)%nat +:+ "): " +:+ e in
          if (attempt <? max_retries - 1)%nat then
            let wait_time := (2 ^ Z.of_nat attempt)%Z in
            let t := fetch_account alpaca rest in
            {| fetch_end := fetch_end t;
               calls := S (calls t);
               sleeps := wait_time :: sleeps t |}
          else {| fetch_end := Return error; calls := 1; sleeps := [] |}
      end
  end.

(** What [_step_initialize] returns, with the trace of its retry loop
    ([None] when the loop was not entered). *)
Record InitResult := {
  init_ok : bool;
  init_equity : Q;
  init_day_start_equity : Q;
  init_error : string;
  init_trace : option FetchTrace
}.

(** The baseline: kept, or reset to the current equity when absent,
    below 1000 or below a tenth of the current equity. *)
Definition establish_baseline (date_string : string) (equity : Q)
    (st : gmap string value) : option (Q * gmap string value) :=
  let day_start_key := "day_start_equity_" +:+ date_string in
  let stored := get_state st day_start_key VNull in
  let reset :=
    let st := set_state day_start_key (VNum equity) st in
    (equity, set_state "day_start_equity" (VNum equity) st) in
  if negb (truthy stored) then Some reset
  else
    day_start_equity ← as_num stored;
    if Qlt_bool day_start_equity 1000 then Some reset
    else if Qlt_bool day_start_equity (equity * (1 # 10)) then Some reset
    else Some (day_start_equity, st).

Definition _step_initialize (alpaca : Alpaca) (date_string : string)
    (now : Q) (st : gmap string value)
    : option (InitResult * gmap string value) :=
  if negb (has_credentials alpaca) then
    let error := "ALPACA_KEY and ALPACA_SECRET required" in
    st ← HealthMonitor.record_api_failure error now st;
    Some ({| init_ok := false; init_equity := 0; init_day_start_equity := 0;
             init_error := error; init_trace := None |}, st)
  else
    let t := fetch_account alpaca (seq 0 max_retries) in
    match fetch_end t with
    | Return error =>
        Some ({| init_ok := false; init_equity := 0; init_day_start_equity := 0;
                 init_error := error; init_trace := Some t |}, st)
    | Exhausted => None
    | Break equity =>
        '(day_start_equity, st) ← establish_baseline date_string equity st;
        let st := snd (HaltManager.clear_if_expired now st) in
        Some ({| init_ok := true; init_equity := equity;
                 init_day_start_equity := day_start_equity;
                 init_error := ""; init_trace := Some t |}, st)
    end.

(** [any("credentials" in e.lower() or "init" in e.lower()
         or "budgets" in e.lower() for e in errors)] *)
Definition is_init_error (errors : list string) : bool :=
  existsb (fun e => contains "credentials" (lower e)
                    || contains "init" (lower e)
                    || contains "budgets" (lower e)) errors.

Definition _step_finalize (bots_run errors : list string)
    (halt_reason : string) (now : Q) (st : gmap string value)
    : LoopResult * gmap string value :=
  let timestamp := isoformat now +:+ "Z" in
  let '(is_halted, st) := HaltManager.is_halted now st in
  let has_errors := (0 <? length errors)%nat in
  let bots_ran := (0 <? length bots_run)%nat in
  let '(status, success) :=
    if is_halted then ("HALTED: " +:+ halt_reason, true)
    else if has_errors && negb bots_ran then
      if is_init_error errors
      then ("FAIL_CLOSED: System failed safely without trading", true)
      else ("ERROR: " +:+ join "; " errors, false)
    else if negb bots_ran then ("SKIPPED: No bots ran", true)
    else if has_errors then
      ("PARTIAL: " +:+ pretty (length bots_run) +:+ " bots with "
       +:+ pretty (length errors) +:+ " errors", false)
    else ("OK: " +:+ pretty (length bots_run) +:+ " bots ran successfully", true) in
  let summary :=
    "Trading Loop Summary:" +:+ nl
    +:+ "- Status: " +:+ status +:+ nl
    +:+ "- Bots run: " +:+ (if bots_ran then join ", " bots_run else "None") +:+ nl
    +:+ "- Errors: " +:+ (if has_errors then join "; " errors else "None") +:+ nl
    +:+ "- Timestamp: " +:+ timestamp in
  ({| success := success; status := status;
      summary := summary; timestamp := timestamp |}, st).

End WithText.
End TradingOrchestrator.

(** ** Vocabulary of the statements *)

(** The keys of a halt record. *)
Definition halt_keys : list string :=
  ["halt.active"; "halt.reason"; "halt.halted_at"; "halt.expires_at"].

(** A store holds no halt key. *)
Definition no_halt_keys (st : gmap string value) : Prop :=
  Forall (fun k => st !! k = None) halt_keys.



Definition id_of (default_id : string) (b : BotConfig) : string :=
  getd (bot_id b) default_id.

Definition momentum_ids (config : BotsConfig) : list string :=
  map (id_of "") (momentum_bots config).

Definition enabled_momentum_ids (config : BotsConfig) : list string :=
  map (id_of "") (PortfolioBot.enabled_momentum (momentum_bots config)).

Definition is_enabled (b : BotConfig) : bool := getd (bot_enabled b) false.

(** No [.] occurs in a text. *)
Fixpoint dotfree (s : string) : bool :=
  match s with
  | EmptyString => true
  | String c s' => negb (Ascii.eqb c ".") && dotfree s'
  end.

(** ** Concrete inputs of the examples *)

(** A small instance of the runtime: two instants with their ISO text
    (2024-01-01 00:00 and 01:00 UTC), numbers rendered as fractions. *)
Definition table_instants : list (string * Q) :=
  [("2024-01-01T00:00:00", 1704067200); ("2024-01-01T01:00:00", 1704070800)].

Definition table_isoformat (t : Q) : string :=
  match List.find (fun e => Qeq_bool (snd e) t) table_instants with
  | Some e => fst e
  | None => "?"
  end.

Definition table_fromisoformat (s : string) : option Q :=
  match List.find (fun e => String.eqb (fst e +:+ "+00:00") s) table_instants with
  | Some e => Some (snd e)
  | None => None
  end.

Definition fraction (q : Q) : string :=
  pretty (Qnum q) +:+ "/" +:+ pretty (Z.pos (Qden q)).

Definition table_text : PyText :=
  {| isoformat := table_isoformat;
     fromisoformat := table_fromisoformat;
     str_num := fraction;
     fmt_0f := fraction;
     fmt_2f := fraction |}.

(** A halt record set at 00:00 with a cool-off of 60 minutes. *)
Definition halted_until_1am : gmap string value :=
  @HaltManager.set_halt table_text "MAX_DAILY_LOSS: test" 60 1704067200 ∅.


(** Settings with the thresholds of the source's defaults. *)
Definition default_settings : Settings :=
  {| risk_global_max_daily_loss_pct := None;
     health_max_api_failures_in_window := None;
     health_max_price_staleness_seconds := None |}.

(** A store with five recorded failures and no price tick. *)
Definition five_failures : gmap string value :=
  {[ "health.api_failure_count" := VNum 5 ]}.

(** A configuration with every key absent: all defaults apply. *)
Definition no_bot : BotConfig :=
  {| bot_id := None; bot_enabled := None;
     bot_max_trades_per_day := None; bot_max_concurrent_positions := None |}.

Definition default_config : BotsConfig :=
  {| exitbot := {| eb_enabled := None; eb_api_failure_halt := None;
                   eb_max_daily_loss_halt := None; eb_cooloff_minutes := None |};
     portfoliobot := {| pf_enabled := None; pf_momentum_bucket_pct := None;
                        pf_options_bucket_pct := None; pf_crypto_bucket_pct := None;
                        pf_per_bot_min_pct := None; pf_per_bot_max_pct := None |};
     momentum_bots := [];
     optionsbot := no_bot;
     cryptobot := no_bot |}.

(** Settings with a maximal daily loss of two percent. *)
Definition two_percent : Settings :=
  {| risk_global_max_daily_loss_pct := Some 2;
     health_max_api_failures_in_window := Some 5;
     health_max_price_staleness_seconds := None |}.

(** A broker with credentials whose flatten succeeds and whose account
    always reports an equity of 10000. *)
Definition steady_broker : Alpaca :=
  {| has_credentials := true;
     flatten := {| fl_success := true; fl_error := "" |};
     get_account := fun _ => Fetched {| acct_equity := 10000; acct_status := "ACTIVE" |} |}.

(** A broker with credentials whose every account fetch times out. *)
Definition failing_broker : Alpaca :=
  {| has_credentials := true;
     flatten := {| fl_success := true; fl_error := "" |};
     get_account := fun _ => FetchRaised "timeout" |}.

(** A broker whose first fetch times out and whose second fetch reports
    an equity of zero. *)
Definition empty_account_broker : Alpaca :=
  {| has_credentials := true;
     flatten := {| fl_success := true; fl_error := "" |};
     get_account := fun k =>
       match k with
       | O => FetchRaised "timeout"
       | _ => Fetched {| acct_equity := 0; acct_status := "ACTIVE" |}
       end |}.


Definition momentum_worker (id : string) : BotConfig :=
  {| bot_id := Some id; bot_enabled := Some true;
     bot_max_trades_per_day := None; bot_max_concurrent_positions := None |}.


(** Two enabled momentum workers, a momentum bucket of 10 percent and
    guardrails of 10 and 50 percent of the daily risk. *)
Definition two_momentum : BotsConfig :=
  {| exitbot := exitbot default_config;
     portfoliobot := {| pf_enabled := Some true;
                        pf_momentum_bucket_pct := Some 10;
                        pf_options_bucket_pct := None;
                        pf_crypto_bucket_pct := None;
                        pf_per_bot_min_pct := Some 10;
                        pf_per_bot_max_pct := Some 50 |};
     momentum_bots := map momentum_worker ["mom_a"; "mom_b"];
     optionsbot := no_bot;
     cryptobot := no_bot |}.

(** Two enabled momentum workers and an enabled options worker, every
    other key absent. *)
Definition momentum_and_options : BotsConfig :=
  {| exitbot := exitbot default_config;
     portfoliobot := portfoliobot default_config;
     momentum_bots := map momentum_worker ["mom_a"; "mom_b"];
     optionsbot := {| bot_id := None; bot_enabled := Some true;
                      bot_max_trades_per_day := None;
                      bot_max_concurrent_positions := None |};
     cryptobot := no_bot |}.

(** * Further parts of the code *)

From Stdlib Require Import Qabs Qround.

(** ** Risk helpers ([core/risk.py]), continued *)



(** ** Market clock ([core/clock.py])

    The local wall-clock reading of [MarketClock.now()]: the day of the
    week ([0] is Monday) and the time of day in microseconds since local
    midnight, the order of which is the order of [datetime.time]. *)

Module MarketClock.

Record LocalTime := {
  weekday : nat;
  time_of_day : N
}.

(** [time(h, m)] *)
Definition time (h m : N) : N := ((h * 60 + m) * 60 * 1000000)%N.

Definition is_market_hours (now : LocalTime) : bool :=
  if (5 <=? weekday now)%nat then false
  else
    let market_open := time 9 30 in
    let market_close := time 16 0 in
    let current_time := time_of_day now in
    (market_open <=? current_time)%N && (current_time <=? market_close)%N.

Definition is_extended_hours (now : LocalTime) : bool :=
  if (5 <=? weekday now)%nat then false
  else
    let current_time := time_of_day now in
    let pre_market_open := time 4 0 in
    let after_hours_close := time 20 0 in
    (pre_market_open <=? current_time)%N && (current_time <=? after_hours_close)%N.

End MarketClock.

(** ** The HTTP layer of the brokerage client
       ([services/alpaca_client.py], [AlpacaClient._request])

    The payload of a response is left abstract.  A response below 400
    always carries a payload that decodes. *)

Module AlpacaClient.
Section WithText.
Context `{PyText}.
Context {Payload : Type}.






End WithText.
End AlpacaClient.

(** ** Execution service ([services/execution.py], [ExecutionService.run])

    The trading logic of the workers is a parameter: what the k-th
    worker of the list returns or raises, and what it leaves in the
    store. *)

Module ExecutionService.

Record ExecutionResult := {
  bots_run : list string;
  trades_attempted : Z;
  positions_managed : Z;
  errors : list string
}.

Inductive BotOutcome :=
| Finished (trades_attempted positions_managed : Z)
| Failed (e : string).

Record Strategies := {
  _execute_crypto_bot :
    nat -> string -> Q -> gmap string value -> BotOutcome * gmap string value;
  _execute_momentum_bot :
    nat -> string -> Q -> gmap string value -> BotOutcome * gmap string value;
  _execute_options_bot :
    nat -> string -> Q -> gmap string value -> BotOutcome * gmap string value;
  (** the text of the [TypeError] of [budget > 0] on a value *)
  budget_type_error : value -> string
}.

(** The checks made before a worker runs. *)
Inductive Preflight :=
| Skipped
| Cleared (max_daily_loss : Q)
| BudgetError (e : string).

Definition preflight (strat : Strategies) (bot_id : string)
    (st : gmap string value) : Preflight :=
  let is_enabled := get_state st (PortfolioBot.bots_key bot_id "enabled") (VBool false) in
  let is_allowed := get_state st (PortfolioBot.bots_key bot_id "allowed") (VBool false) in
  let max_daily_loss :=
    get_state st (PortfolioBot.budget_key bot_id "max_daily_loss") (VNum 0) in
  if negb (truthy is_enabled) || negb (truthy is_allowed) then Skipped
  else
    match max_daily_loss with
    | VNull => if valid_budget None then Cleared 0 else Skipped
    | _ =>
        match as_num max_daily_loss with
        | None => BudgetError (budget_type_error strat max_daily_loss)
        | Some b => if valid_budget (Some b) then Cleared b else Skipped
        end
    end.

(** The trading logic selected by the identifier; none for an
    identifier of no known kind. *)
Definition dispatch (strat : Strategies) (k : nat) (bot_id : string)
    (max_daily_loss : Q) (st : gmap string value)
    : BotOutcome * gmap string value :=
  if String.eqb bot_id "crypto_core" then _execute_crypto_bot strat k bot_id max_daily_loss st
  else if String.prefix "mom_" bot_id then _execute_momentum_bot strat k bot_id max_daily_loss st
  else if String.eqb bot_id "opt_core" then _execute_options_bot strat k bot_id max_daily_loss st
  else (Finished 0 0, st).

(** The loop [for bot_id in enabled_bots], from the k-th worker on. *)
Fixpoint run_bots (strat : Strategies) (k : nat) (bots : list string)
    (acc : ExecutionResult) (st : gmap string value)
    : ExecutionResult * gmap string value :=
  match bots with
  | [] => (acc, st)
  | bot_id :: rest =>
      match preflight strat bot_id st with
      | Skipped => run_bots strat (S k) rest acc st
      | BudgetError e =>
          run_bots strat (S k) rest
            {| bots_run := bots_run acc;
               trades_attempted := trades_attempted acc;
               positions_managed := positions_managed acc;
               errors := errors acc ++ [bot_id +:+ ": " +:+ e] |} st
      | Cleared max_daily_loss =>
          let '(outcome, st) := dispatch strat k bot_id max_daily_loss st in
          match outcome with
          | Finished t p =>
              run_bots strat (S k) rest
                {| bots_run := bots_run acc ++ [bot_id];
                   trades_attempted := (trades_attempted acc + t)%Z;
                   positions_managed := (positions_managed acc + p)%Z;
                   errors := errors acc |} st
          | Failed e =>
              run_bots strat (S k) rest
                {| bots_run := bots_run acc;
                   trades_attempted := trades_attempted acc;
                   positions_managed := positions_managed acc;
                   errors := errors acc ++ [bot_id +:+ ": " +:+ e] |} st
          end
      end
  end.

Definition nothing_run : ExecutionResult :=
  {| bots_run := []; trades_attempted := 0; positions_managed := 0; errors := [] |}.

Section WithText.
Context `{PyText}.

Definition run (strat : Strategies) (enabled_bots : list string) (equity : Q)
    (now : Q) (st : gmap string value) : ExecutionResult * gmap string value :=
  let '(r, st) := run_bots strat 0 enabled_bots nothing_run st in
  (r, HealthMonitor.record_price_tick now st).

End WithText.
End ExecutionService.

(** ** The loop of the orchestrator ([orchestrator.py], [run_loop])

    The four instants are those of steps 1, 2, 4 and 5.  One [load]
    serves steps 2 and 3: the loaders cache, and step 3 runs only after
    step 2 has loaded the configuration. *)

Module OrchestratorLoop.
Section WithText.
Context `{PyText}.

(** The text of a value that is a [str]; a value of another type among
    the errors makes [join] raise in step 5. *)
Definition as_text (v : value) : option string :=
  match v with
  | VStr s => Some s
  | _ => None
  end.

Definition run_loop (load : ConfigLoad) (alpaca : Alpaca)
    (strat : ExecutionService.Strategies) (date_string : string)
    (t_init t_exitbot t_execution t_finalize : Q) (st : gmap string value)
    : option (TradingOrchestrator.LoopResult * gmap string value) :=
  '(init, st) ← TradingOrchestrator._step_initialize alpaca date_string t_init st;
  let equity := TradingOrchestrator.init_equity init in
  let day_start_equity := TradingOrchestrator.init_day_start_equity init in
  let init_error := TradingOrchestrator.init_error init in
  let errors := if TradingOrchestrator.init_ok init then [] else [init_error] in
  '(should_continue, halt_reason, errors, st) ←
    (if TradingOrchestrator.init_ok init then
       '(exitbot_result, st) ←
         ExitBot.run load alpaca t_exitbot equity day_start_equity st;
       halt_reason ← as_text (ExitBot.halt_reason exitbot_result);
       let should_continue := ExitBot.should_continue exitbot_result in
       Some (should_continue, halt_reason,
             if should_continue then errors else errors ++ [halt_reason], st)
     else Some (false, "Init failed: " +:+ init_error, errors, st));
  '(enabled_bots, errors, st) ←
    (if should_continue : bool then
       '(portfolio_result, st) ← PortfolioBot.run load equity st;
       if PortfolioBot.budgets_set portfolio_result
       then Some (PortfolioBot.enabled_bots portfolio_result, errors, st)
       else Some ([], errors ++ [if String.eqb (PortfolioBot.error portfolio_result) ""
                                 then "Budgets not set"
                                 else PortfolioBot.error portfolio_result], st)
     else Some ([], errors, st));
  let '(bots_run, errors, st) :=
    if should_continue && (0 <? length enabled_bots)%nat then
      let '(exec_result, st) :=
        ExecutionService.run strat enabled_bots equity t_execution st in
      (ExecutionService.bots_run exec_result,
       errors ++ ExecutionService.errors exec_result, st)
    else ([], errors, st) in
  Some (TradingOrchestrator._step_finalize bots_run errors halt_reason t_finalize st).

End WithText.
End OrchestratorLoop.

(** ** Configuration loaders ([core/config.py])

    A YAML document; a dictionary keeps its keys in order.  The value
    [YNull] is Python's [None], which is also the empty cache. *)

Module Config.

#[warnings="-register-all"] Inductive yaml :=
| YNull
| YBool (b : bool)
| YNum (q : Q)
| YStr (s : string)
| YList (l : list yaml)
| YDict (d : list (string * yaml)).

(** [d.get(key)] and [key in d] *)
Fixpoint dict_get (key : string) (d : list (string * yaml)) : option yaml :=
  match d with
  | [] => None
  | (k, v) :: rest => if String.eqb k key then Some v else dict_get key rest
  end.

Definition has_key (key : string) (d : list (string * yaml)) : bool :=
  match dict_get key d with
  | Some _ => true
  | None => false
  end.

(** [d[key] = v]: in place for a key of the dictionary, at the end for
    a new one. *)
Fixpoint dict_set (key : string) (v : yaml) (d : list (string * yaml))
    : list (string * yaml) :=
  match d with
  | [] => [(key, v)]
  | (k, w) :: rest =>
      if String.eqb k key then (k, v) :: rest else (k, w) :: dict_set key v rest
  end.

(** What finding, opening and parsing the file does. *)
Inductive ReadOutcome :=
| ReadOk (doc : yaml)
| FileNotFound (e : string)
| YAMLError (e : string).

Inductive PyError :=
| FileNotFoundError (msg : string)
| ValueError (msg : string)
| YAMLParseError (msg : string)
| TypeError.

Inductive LoadResult :=
| Return (doc : yaml)
| Raise (e : PyError).

(** [key in x] for a string [key]; [None] where [x] is not iterable. *)
Definition py_in (key : string) (x : yaml) : option bool :=
  match x with
  | YDict d => Some (has_key key d)
  | YStr s => Some (contains key s)
  | YList l => Some (existsb (fun e => match e with
                                       | YStr s => String.eqb s key
                                       | _ => false
                                       end) l)
  | YNull | YBool _ | YNum _ => None
  end.

(** The defaults written into a freshly loaded dictionary; the result is
    the dictionary as it is left, and whether the block raised. *)
Definition ensure_runner (d : list (string * yaml))
    : list (string * yaml) * bool :=
  let d := if has_key "runner" d then d else dict_set "runner" (YDict []) d in
  match dict_get "runner" d with
  | Some runner =>
      match py_in "loop_interval_seconds" runner with
      | None => (d, true)
      | Some true => (d, false)
      | Some false =>
          match runner with
          | YDict r =>
              (dict_set "runner" (YDict (dict_set "loop_interval_seconds" (YNum 5) r)) d,
               false)
          | _ => (d, true)
          end
      end
  | None => (d, true)
  end.

(** [load_settings()]: the result and the cache it leaves. *)
Definition load_settings (cache : yaml) (read : ReadOutcome) : LoadResult * yaml :=
  match cache with
  | YNull =>
      match read with
      | FileNotFound e => (Raise (FileNotFoundError ("Configuration error: " +:+ e)), YNull)
      | YAMLError e => (Raise (ValueError ("Invalid YAML in settings file: " +:+ e)), YNull)
      | ReadOk doc =>
          match doc with
          | YDict d =>
              let '(d, raised) := ensure_runner d in
              if raised : bool then (Raise TypeError, YDict d)
              else (Return (YDict d), YDict d)
          | _ => (Raise (ValueError "Settings file must contain a dictionary"), doc)
          end
      end
  | _ => (Return cache, cache)
  end.

(** [load_bots_config()] *)
Definition load_bots_config (cache : yaml) (read : ReadOutcome) : LoadResult * yaml :=
  match cache with
  | YNull =>
      match read with
      | FileNotFound e => (Raise (FileNotFoundError e), YNull)
      | YAMLError e => (Raise (YAMLParseError e), YNull)
      | ReadOk doc => (Return doc, doc)
      end
  | _ => (Return cache, cache)
  end.

(** [reload_configs()]: both caches are emptied. *)
Definition reload_configs (caches : yaml * yaml) : yaml * yaml := (YNull, YNull).

End Config.

(** ** Vocabulary of the further statements *)

(** Successive calls of [record_api_failure], each with its error text
    and its instant. *)
Fixpoint record_failures `{PyText} (calls : list (string * Q))
    (st : gmap string value) : option (gmap string value) :=
  match calls with
  | [] => Some st
  | (error, now) :: rest =>
      st ← HealthMonitor.record_api_failure error now st;
      record_failures rest st
  end.

(** A key of the namespaces that the allocator writes. *)
Definition allocator_key (k : string) : bool :=
  String.prefix "budgets." k || String.prefix "bots." k.

(** A key of a halt record. *)
Definition is_halt_key (k : string) : bool :=
  bool_decide (k ∈ halt_keys).

(** Strategies that are never reached in the examples. *)
Definition idle_strategies : ExecutionService.Strategies :=
  {| ExecutionService._execute_crypto_bot := fun _ _ _ st => (ExecutionService.Finished 0 0, st);
     ExecutionService._execute_momentum_bot := fun _ _ _ st => (ExecutionService.Finished 1 0, st);
     ExecutionService._execute_options_bot := fun _ _ _ st => (ExecutionService.Finished 0 0, st);
     ExecutionService.budget_type_error := fun _ => "not supported" |}.

(** A broker without credentials. *)
Definition no_credentials : Alpaca :=
  {| has_credentials := false;
     flatten := {| fl_success := false; fl_error := "No credentials" |};
     get_account := fun _ => FetchRaised "ALPACA_KEY and ALPACA_SECRET required" |}.

(** A kill-switch with both conditions turned off. *)
Definition conditions_off : BotsConfig :=
  {| exitbot := {| eb_enabled := Some true; eb_api_failure_halt := Some false;
                   eb_max_daily_loss_halt := Some false; eb_cooloff_minutes := None |};
     portfoliobot := portfoliobot default_config;
     momentum_bots := [];
     optionsbot := no_bot;
     cryptobot := no_bot |}.

(** A broker with credentials whose liquidation fails. *)
Definition stuck_broker : Alpaca :=
  {| has_credentials := true;
     flatten := {| fl_success := false; fl_error := "Alpaca request failed: timeout" |};
     get_account := fun _ => FetchRaised "timeout" |}.

(** The record that the allocator leaves for a worker: a budget, an open
    risk of twice the budget and the permission to trade. *)
Definition budget_record (st : gmap string value) (id : string) : Prop :=
  exists x,
    st !! PortfolioBot.budget_key id "max_daily_loss" = Some (VNum x)
    /\ st !! PortfolioBot.budget_key id "max_open_risk" = Some (VNum (x * 2))
    /\ st !! PortfolioBot.bots_key id "allowed" = Some (VBool true).

(** The identifiers that a run of the allocator writes. *)
Definition allocated_ids (config : BotsConfig) : list string :=
  momentum_ids config
  ++ (if is_enabled (optionsbot config)
      then [id_of "opt_core" (optionsbot config)] else [])
  ++ (if is_enabled (cryptobot config)
      then [id_of "crypto_core" (cryptobot config)] else []).

(** The persisted budget of a worker as the execution service reads it. *)
Definition stored_budget (st : gmap string value) (id : string) : value :=
  get_state st (PortfolioBot.budget_key id "max_daily_loss") (VNum 0).

(** Both flags of a worker are set in the store. *)
Definition flags_set (st : gmap string value) (id : string) : bool :=
  truthy (get_state st (PortfolioBot.bots_key id "enabled") (VBool false))
  && truthy (get_state st (PortfolioBot.bots_key id "allowed") (VBool false)).

(** A worker that may not run: a flag is missing or false, or the budget
    is absent, null, zero or negative. *)
Definition ineligible (st : gmap string value) (id : string) : Prop :=
  flags_set st id = false
  \/ stored_budget st id = VNull
  \/ exists b, as_num (stored_budget st id) = Some b /\ b <= 0.

(** A worker that may run, with its budget. *)
Definition eligible (st : gmap string value) (id : string) (b : Q) : Prop :=
  flags_set st id = true
  /\ stored_budget st id <> VNull
  /\ as_num (stored_budget st id) = Some b /\ 0 < b.

(** An identifier of none of the three kinds of worker. *)
Definition unknown_kind (id : string) : Prop :=
  id <> "crypto_core" /\ String.prefix "mom_" id = false /\ id <> "opt_core".

(** A store in which the worker [scalper] is enabled with a budget. *)
Definition scalper_store : gmap string value :=
  {[ "bots.scalper.enabled" := VBool true;
     "bots.scalper.allowed" := VBool true;
     "budgets.scalper.max_daily_loss" := VNum 25 ]}.

(** * Properties *)

(** ** Comparisons of rationals *)

Lemma Qlt_bool_iff (x y : Q) : Qlt_bool x y = true <-> x < y.
Proof.
  unfold Qlt_bool. rewrite negb_true_iff. split.
  - intros E. apply Qnot_le_lt. intros Hle. apply Qle_bool_iff in Hle. congruence.
  - intros Hlt. destruct (Qle_bool y x) eqn:E; [|reflexivity].
    apply Qle_bool_iff in E. exfalso. apply (Qlt_irrefl x).
    eapply Qlt_le_trans; eassumption.
Qed.

Lemma Qlt_bool_false_iff (x y : Q) : Qlt_bool x y = false <-> y <= x.
Proof.
  unfold Qlt_bool. rewrite negb_false_iff. apply Qle_bool_iff.
Qed.

Lemma Qle_bool_false_iff (x y : Q) : Qle_bool x y = false <-> y < x.
Proof.
  rewrite <- Qlt_bool_iff. unfold Qlt_bool.
  destruct (Qle_bool x y); simpl; intuition congruence.
Qed.

(** ** Risk helpers *)




Section HaltFacts.
Context `{PyText}.

Lemma clear_halt_no_keys (st : gmap string value) :
  no_halt_keys (HaltManager.clear_halt st).
Proof.
  unfold no_halt_keys, halt_keys, HaltManager.clear_halt, delete_state.
  repeat constructor; simplify_map_eq; done.
Qed.



End HaltFacts.

(** ** Halt manager *)


Section HaltExpiry.
Context `{PyText}.


End HaltExpiry.


(** ** Health monitor *)


Section HealthFacts.
Context `{PyText}.

(** The failure count that the monitor reads: the persisted number. *)
Lemma failure_count_read (failures : Q) (st : gmap string value) :
  get_state st "health.api_failure_count" (VNum 0) = VNum failures ->
  exists n, as_num (py_or (get_state st "health.api_failure_count" (VNum 0)) (VNum 0))
            = Some n /\ n == failures.
Proof.
  intros ->. unfold py_or. simpl.
  destruct (Qeq_bool failures 0) eqn:E; simpl.
  - exists 0. split; [reflexivity|]. apply Qeq_bool_iff in E. symmetry. exact E.
  - exists failures. split; reflexivity.
Qed.

Lemma snapshot_characterised (settings : Settings) (now failures : Q)
    (st : gmap string value) :
  get_state st "health.api_failure_count" (VNum 0) = VNum failures ->
  let max_failures := getd (health_max_api_failures_in_window settings) 5 in
  let max_staleness := getd (health_max_price_staleness_seconds settings) 15 in
  let tick := get_state st "health.last_price_tick" VNull in
  exists snap,
    HealthMonitor.get_snapshot settings now st = Some snap
    /\ HealthMonitor.api_failures snap == failures
    /\ HealthMonitor.stale_seconds snap = HealthMonitor.staleness now tick
    /\ (HealthMonitor.ok snap = true <->
        failures < max_failures
        /\ (truthy tick = false \/ HealthMonitor.stale_seconds snap <= max_staleness)).
Proof.
  intros Hcount max_failures max_staleness tick.
  destruct (failure_count_read _ _ Hcount) as (n & Hn & Hnf).
  unfold HealthMonitor.get_snapshot. rewrite Hn. simpl.
  fold max_failures max_staleness tick.
  destruct (Qle_bool max_failures n) eqn:E1.
  - eexists. split; [reflexivity|]. simpl. repeat split; try done.
    intros [Hlt _]. apply Qle_bool_iff in E1. rewrite Hnf in E1.
    exfalso. apply (Qlt_irrefl failures). eapply Qlt_le_trans; eassumption.
  - apply Qle_bool_false_iff in E1. rewrite Hnf in E1.
    destruct (truthy tick) eqn:E2; simpl.
    + destruct (Qlt_bool max_staleness (HealthMonitor.staleness now tick)) eqn:E3.
      * eexists. split; [reflexivity|]. simpl. repeat split; try done.
        intros [_ [Hf|Hle]]; [done|].
        apply Qlt_bool_iff in E3. exfalso.
        apply (Qlt_irrefl max_staleness). eapply Qlt_le_trans; eassumption.
      * eexists. split; [reflexivity|]. simpl. repeat split; try done.
        right. apply Qlt_bool_false_iff. exact E3.
    + eexists. split; [reflexivity|]. simpl. repeat split; try done. by left.
Qed.

End HealthFacts.

Section HealthSnapshot.
Context `{PyText}.


Lemma price_tick_state (t0 : Q) (st : gmap string value) :
  let st1 := HealthMonitor.record_price_tick t0 st in
  st1 !! "health.api_failure_count" = Some (VNum 0)
  /\ st1 !! "health.last_price_tick" = Some (VStr (isoformat t0 +:+ "Z")).
Proof.
  unfold HealthMonitor.record_price_tick, set_state. split.
  - apply lookup_insert_eq.
  - rewrite lookup_insert_ne by done. apply lookup_insert_eq.
Qed.


End HealthSnapshot.


(** ** Kill-switch *)

Section ExitBotFacts.
Context `{PyText}.

(** Without an active flag in the store, [is_halted()] is false. *)
Lemma is_halted_inactive (later : Q) (st : gmap string value) :
  truthy (get_state st "halt.active" (VBool false)) = false ->
  fst (HaltManager.is_halted later st) = false.
Proof.
  intros Hin. unfold HaltManager.is_halted. simpl.
  assert (Hcases : snd (HaltManager.clear_if_expired later st) = st
                   \/ snd (HaltManager.clear_if_expired later st)
                      = HaltManager.clear_halt st).
  { unfold HaltManager.clear_if_expired.
    repeat (case_match; simpl; auto). }
  unfold py_or.
  destruct Hcases as [-> | ->].
  - rewrite Hin. reflexivity.
  - assert (E : get_state (HaltManager.clear_halt st) "halt.active" (VBool false)
                = VBool false).
    { unfold get_state, HaltManager.clear_halt, delete_state.
      by simplify_map_eq. }
    rewrite E. reflexivity.
Qed.

(** C9: when loading the configuration raises, the result does not
    continue and reports a halt with the reason
    [Config load failed: <error>], the store is left as it was (no halt
    record is written), and with no halt active before, [is_halted()]
    still returns false afterwards. *)
Theorem config_failure_reports_unpersisted_halt (e : string) (alpaca : Alpaca)
    (now equity day_start_equity : Q) (st : gmap string value) :
  exists r,
    ExitBot.run (ConfigError e) alpaca now equity day_start_equity st = Some (r, st)
    /\ ExitBot.should_continue r = false
    /\ ExitBot.is_halted r = true
    /\ ExitBot.halt_reason r = VStr ("Config load failed: " +:+ e)
    /\ forall later : Q,
         truthy (get_state st "halt.active" (VBool false)) = false ->
         fst (HaltManager.is_halted later st) = false.
Proof.
  eexists. split; [reflexivity|]. simpl.
  repeat (split; [reflexivity|]).
  intros later. apply is_halted_inactive.
Qed.

(** C10: the branches of [run] that report a halt other than the
    maximal-daily-loss one (configuration load failure, already halted,
    health failure) return a pnl of [0], whatever the equity and the
    baseline are. *)
Theorem halt_branches_zero_pnl (alpaca : Alpaca)
    (now equity day_start_equity : Q) (st : gmap string value) :
  (forall e, exists r st',
      ExitBot.run (ConfigError e) alpaca now equity day_start_equity st = Some (r, st')
      /\ ExitBot.is_halted r = true /\ ExitBot.pnl r = 0)
  /\ (forall config settings,
        getd (eb_enabled (exitbot config)) true = true ->
        fst (HaltManager.is_halted now st) = true ->
        exists r st',
          ExitBot.run (ConfigOk config settings) alpaca now equity day_start_equity st
          = Some (r, st')
          /\ ExitBot.is_halted r = true /\ ExitBot.pnl r = 0)
  /\ (forall config settings health,
        getd (eb_enabled (exitbot config)) true = true ->
        fst (HaltManager.is_halted now st) = false ->
        HealthMonitor.get_snapshot settings now (snd (HaltManager.is_halted now st))
        = Some health ->
        HealthMonitor.ok health = false ->
        getd (eb_api_failure_halt (exitbot config)) true = true ->
        exists r st',
          ExitBot.run (ConfigOk config settings) alpaca now equity day_start_equity st
          = Some (r, st')
          /\ ExitBot.is_halted r = true /\ ExitBot.pnl r = 0).
Proof.
  split; [|split].
  - intros e. do 2 eexists. split; [reflexivity|]. split; reflexivity.
  - intros config settings Hen Hhalt. unfold ExitBot.run. cbv zeta. rewrite Hen.
    destruct (HaltManager.is_halted now st) as [halted st1]. simpl in Hhalt.
    subst halted. simpl. do 2 eexists. split; [reflexivity|]. split; reflexivity.
  - intros config settings health Hen Hhalt Hsnap Hbad Hkill.
    unfold ExitBot.run. cbv zeta. rewrite Hen.
    destruct (HaltManager.is_halted now st) as [halted st1]. simpl in Hhalt, Hsnap.
    subst halted. simpl. rewrite Hsnap. simpl. rewrite Hbad, Hkill. simpl.
    do 2 eexists. split; [reflexivity|]. split; reflexivity.
Qed.


End ExitBotFacts.

Lemma config_failure_reports_unpersisted_halt_witness :
  exists r,
    @ExitBot.run table_text (ConfigError "bots.yaml missing") steady_broker
      1704067200 9000 10000 ∅ = Some (r, ∅)
    /\ ExitBot.is_halted r = true
    /\ fst (@HaltManager.is_halted table_text 1704067200 ∅) = false.
Proof.
  destruct (@config_failure_reports_unpersisted_halt table_text
              "bots.yaml missing" steady_broker 1704067200 9000 10000 ∅)
    as (r & Hrun & _ & Hhalt & _ & Hlater).
  exists r. split; [exact Hrun|]. split; [exact Hhalt|].
  apply Hlater. reflexivity.
Defined.

Lemma halt_branches_zero_pnl_witness :
  exists r st',
    @ExitBot.run table_text (ConfigOk default_config default_settings) steady_broker
      1704067200 9000 10000 halted_until_1am = Some (r, st')
    /\ ExitBot.is_halted r = true /\ ExitBot.pnl r = 0.
Proof.
  apply (@halt_branches_zero_pnl table_text steady_broker 1704067200 9000 10000
           halted_until_1am).
  - reflexivity.
  - vm_compute. reflexivity.
Defined.


(** The two cases of the specification: from a baseline of 10000 with a
    maximal loss of two percent, a pnl of -250 trips the halt and a pnl
    of -150 does not. *)
Example loss_of_250_trips :
  (fun o => (ExitBot.is_halted (fst o), ExitBot.should_continue (fst o)))
    <$> @ExitBot.run table_text (ConfigOk default_config two_percent) steady_broker
          1704067200 9750 10000 ∅
  = Some (true, false).
Proof. vm_compute. reflexivity. Qed.

Example loss_of_150_continues :
  (fun o => (ExitBot.is_halted (fst o), ExitBot.should_continue (fst o)))
    <$> @ExitBot.run table_text (ConfigOk default_config two_percent) steady_broker
          1704067200 9850 10000 ∅
  = Some (false, true).
Proof. vm_compute. reflexivity. Qed.

(** ** Orchestrator: the classification of step 5 *)

Section Finalize.
Context `{PyText}.



End Finalize.


(** ** Orchestrator: the account fetch of step 1 *)

(** C7 (counterexample): when all three fetches raise, the loop waits 1s
    and 2s and returns; no wait of 4s takes place. *)
Lemma no_third_wait :
  let t := @TradingOrchestrator.fetch_account table_text failing_broker
             (seq 0 TradingOrchestrator.max_retries) in
  TradingOrchestrator.calls t = 3%nat
  /\ TradingOrchestrator.sleeps t = [1; 2]%Z
  /\ TradingOrchestrator.sleeps t <> [1; 2; 4]%Z.
Proof.
  split; [reflexivity|]. split; [reflexivity|]. discriminate.
Qed.

Section Fetch.
Context `{PyText}.

(** When the retry loop returns an error, step 1 fails with that error
    and leaves the store as it was. *)
Lemma step_initialize_fetch_failed (alpaca : Alpaca) (date_string : string)
    (now : Q) (st : gmap string value) (error : string) :
  has_credentials alpaca = true ->
  TradingOrchestrator.fetch_end
    (TradingOrchestrator.fetch_account alpaca (seq 0 TradingOrchestrator.max_retries))
  = TradingOrchestrator.Return error ->
  exists r,
    TradingOrchestrator._step_initialize alpaca date_string now st = Some (r, st)
    /\ TradingOrchestrator.init_ok r = false
    /\ TradingOrchestrator.init_error r = error.
Proof.
  intros Hc He. unfold TradingOrchestrator._step_initialize.
  rewrite Hc. cbn [negb]. cbv zeta. rewrite He.
  eexists. split; [reflexivity|]. split; reflexivity.
Qed.

(** C7 (amended): in step 1 the account fetch is attempted at most 3
    times; a wait of 1s follows a first failed attempt and a wait of 2s a
    second one, and no wait follows the third; if all three attempts
    raise, step 1 fails and reports the error of the last attempt; a
    fetched equity [<= 0] fails step 1 at once, with no further
    attempt. *)
Theorem fetch_retry_discipline (alpaca : Alpaca) :
  let t := TradingOrchestrator.fetch_account alpaca
             (seq 0 TradingOrchestrator.max_retries) in
  (TradingOrchestrator.calls t <= 3)%nat
  /\ TradingOrchestrator.sleeps t
     = take (TradingOrchestrator.calls t - 1) [1; 2]%Z
  /\ TradingOrchestrator.fetch_end t <> TradingOrchestrator.Exhausted
  /\ (forall e0 e1 e2,
        get_account alpaca 0 = FetchRaised e0 ->
        get_account alpaca 1 = FetchRaised e1 ->
        get_account alpaca 2 = FetchRaised e2 ->
        TradingOrchestrator.calls t = 3%nat
        /\ TradingOrchestrator.sleeps t = [1; 2]%Z
        /\ TradingOrchestrator.fetch_end t
           = TradingOrchestrator.Return
               ("Failed to fetch account (attempt 3): " +:+ e2))
  /\ (forall (k : nat) (a : Account),
        (k < 3)%nat ->
        (forall j, (j < k)%nat -> exists e, get_account alpaca j = FetchRaised e) ->
        get_account alpaca k = Fetched a ->
        acct_equity a <= 0 ->
        TradingOrchestrator.calls t = S k
        /\ TradingOrchestrator.fetch_end t
           = TradingOrchestrator.Return
               ("Invalid account equity: " +:+ str_num (acct_equity a)))
  /\ (has_credentials alpaca = true ->
      forall error date_string now (st : gmap string value),
        TradingOrchestrator.fetch_end t = TradingOrchestrator.Return error ->
        exists r,
          TradingOrchestrator._step_initialize alpaca date_string now st = Some (r, st)
          /\ TradingOrchestrator.init_ok r = false
          /\ TradingOrchestrator.init_error r = error).
Proof.
  intros t. subst t.
  split; [|split; [|split; [|split; [|split]]]].
  - cbn. repeat (case_match; cbn; try lia).
  - cbn. repeat (case_match; cbn; try reflexivity).
  - cbn. repeat (case_match; cbn; try discriminate).
  - intros e0 e1 e2 H0 H1 H2. cbn. rewrite H0. cbn. rewrite H1. cbn.
    rewrite H2. cbn. repeat split; reflexivity.
  - intros k a Hk Hraise Hfetch Hle.
    apply Qle_bool_iff in Hle.
    destruct k as [|[|[|k]]]; [| | |lia].
    + cbn. rewrite Hfetch, Hle. split; reflexivity.
    + destruct (Hraise 0%nat ltac:(lia)) as [e0 H0].
      cbn. rewrite H0. cbn. rewrite Hfetch, Hle. split; reflexivity.
    + destruct (Hraise 0%nat ltac:(lia)) as [e0 H0].
      destruct (Hraise 1%nat ltac:(lia)) as [e1 H1].
      cbn. rewrite H0. cbn. rewrite H1. cbn. rewrite Hfetch, Hle.
      split; reflexivity.
  - intros Hc error date_string now st He.
    apply step_initialize_fetch_failed; assumption.
Qed.

End Fetch.

Lemma fetch_retry_discipline_witness :
  let t := @TradingOrchestrator.fetch_account table_text empty_account_broker
             (seq 0 TradingOrchestrator.max_retries) in
  TradingOrchestrator.calls t = 2%nat
  /\ TradingOrchestrator.fetch_end t
     = TradingOrchestrator.Return ("Invalid account equity: " +:+ fraction 0).
Proof.
  destruct (@fetch_retry_discipline table_text empty_account_broker)
    as (_ & _ & _ & _ & Hhard & _).
  apply (Hhard 1%nat {| acct_equity := 0; acct_status := "ACTIVE" |}).
  - lia.
  - intros j Hj. exists "timeout". destruct j; [reflexivity|lia].
  - reflexivity.
  - discriminate.
Defined.

(** ** Budget allocator *)

(** *** Keys of the store *)

Lemma dotfree_app_dot (b g : string) : dotfree (b +:+ String "." g) = false.
Proof.
  induction b as [|c b IH]; [reflexivity|].
  change (negb (Ascii.eqb c ".") && dotfree (b +:+ String "." g) = false).
  rewrite IH. apply andb_false_r.
Qed.

Lemma split_last_dot (a b f g : string) :
  dotfree f = true -> dotfree g = true ->
  a +:+ String "." f = b +:+ String "." g -> a = b /\ f = g.
Proof.
  intros Hf Hg. revert b. induction a as [|c a IH]; intros [|d b] E; cbn in E.
  - injection E as ->. done.
  - injection E as <- ->. rewrite dotfree_app_dot in Hf. discriminate.
  - injection E as -> <-. rewrite dotfree_app_dot in Hg. discriminate.
  - injection E as -> E. destruct (IH _ E) as [-> ->]. done.
Qed.

Lemma budget_key_inj (a b f g : string) :
  dotfree f = true -> dotfree g = true ->
  PortfolioBot.budget_key a f = PortfolioBot.budget_key b g -> a = b /\ f = g.
Proof.
  intros Hf Hg E. unfold PortfolioBot.budget_key in E. cbn in E.
  injection E as E. by apply split_last_dot.
Qed.

Lemma bots_key_not_budget_key (a b f g : string) :
  PortfolioBot.bots_key a f <> PortfolioBot.budget_key b g.
Proof. unfold PortfolioBot.bots_key, PortfolioBot.budget_key. cbn. discriminate. Qed.

Lemma budget_key_other_field (a b f : string) :
  dotfree f = true -> f <> "max_daily_loss" ->
  PortfolioBot.budget_key a f <> PortfolioBot.budget_key b "max_daily_loss".
Proof.
  intros Hf Hne E. apply budget_key_inj in E; [|done|done]. tauto.
Qed.

(** *** What the writes leave under a worker's [max_daily_loss] *)

Lemma persist_budget_lookup (id w : string) (x t c : Q) (e : bool)
    (st : gmap string value) :
  PortfolioBot.persist_budget id x t c e st
    !! PortfolioBot.budget_key w "max_daily_loss"
  = if decide (id = w) then Some (VNum x)
    else st !! PortfolioBot.budget_key w "max_daily_loss".
Proof.
  unfold PortfolioBot.persist_budget, set_state.
  rewrite !(lookup_insert_ne _ (PortfolioBot.bots_key _ _))
    by apply bots_key_not_budget_key.
  rewrite !lookup_insert_ne by (apply budget_key_other_field; done).
  rewrite lookup_insert. destruct (decide (id = w)) as [->|Hne].
  - rewrite decide_True; done.
  - rewrite decide_False; [done|].
    intros E. apply budget_key_inj in E; [|done|done]. tauto.
Qed.

Lemma allocate_momentum_lookup (bots : list BotConfig) (each : Q)
    (en : list string) (st : gmap string value) (w : string) :
  (PortfolioBot.allocate_momentum bots each en st).2
    !! PortfolioBot.budget_key w "max_daily_loss"
  = if decide (w ∈ map (id_of "") bots) then Some (VNum each)
    else st !! PortfolioBot.budget_key w "max_daily_loss".
Proof.
  revert en st. induction bots as [|bot rest IH]; intros en st; cbn.
  - rewrite decide_False; [done|]. intros Hn; by apply elem_of_nil in Hn.
  - rewrite IH, persist_budget_lookup. fold (id_of "" bot).
    destruct (decide (w ∈ map (id_of "") rest)) as [Hin|Hnin].
    + rewrite decide_True; [done|]. apply elem_of_cons; by right.
    + destruct (decide (id_of "" bot = w)) as [<-|Hne].
      * rewrite decide_True; [done|]. apply elem_of_cons; by left.
      * rewrite decide_False; [done|].
        intros Hin. apply elem_of_cons in Hin as [->|Hin]; done.
Qed.

Lemma allocate_momentum_enabled (bots : list BotConfig) (each : Q)
    (en : list string) (st : gmap string value) :
  (PortfolioBot.allocate_momentum bots each en st).1
  = en ++ map (id_of "") (PortfolioBot.enabled_momentum bots).
Proof.
  revert en st. induction bots as [|bot rest IH]; intros en st; cbn.
  - by rewrite app_nil_r.
  - rewrite IH. destruct (getd (bot_enabled bot) false); cbn; [|done].
    by rewrite <- app_assoc.
Qed.

Lemma allocate_single_lookup (bot : BotConfig) (d : string) (bucket t c : Q)
    (en : list string) (st : gmap string value) (w : string) :
  (PortfolioBot.allocate_single bot d bucket t c en st).2
    !! PortfolioBot.budget_key w "max_daily_loss"
  = if is_enabled bot && bool_decide (id_of d bot = w) then Some (VNum bucket)
    else st !! PortfolioBot.budget_key w "max_daily_loss".
Proof.
  unfold PortfolioBot.allocate_single, is_enabled.
  destruct (getd (bot_enabled bot) false); cbn; [|done].
  rewrite persist_budget_lookup. fold (id_of d bot).
  destruct (decide (id_of d bot = w)).
  - rewrite bool_decide_eq_true_2; done.
  - rewrite bool_decide_eq_false_2; done.
Qed.

Lemma allocate_single_enabled (bot : BotConfig) (d : string) (bucket t c : Q)
    (en : list string) (st : gmap string value) :
  (PortfolioBot.allocate_single bot d bucket t c en st).1
  = en ++ (if is_enabled bot then [id_of d bot] else []).
Proof.
  unfold PortfolioBot.allocate_single, is_enabled.
  destruct (getd (bot_enabled bot) false); cbn; [done|by rewrite app_nil_r].
Qed.

(** *** Arithmetic of the clamp *)











(** *** Sums of persisted budgets *)


(** *** The store after a successful run *)

Lemma run_success (config : BotsConfig) (settings : Settings)
    (equity day_start_equity : Q) (st : gmap string value) :
  getd (pf_enabled (portfoliobot config)) true = true ->
  as_num (py_or (get_state st "day_start_equity" (VNum equity)) (VNum equity))
  = Some day_start_equity ->
  let p := PortfolioBot.plan config settings day_start_equity in
  let each := PortfolioBot.mom_each (PortfolioBot.per_min p) (PortfolioBot.per_max p)
                (PortfolioBot.mom_bucket p) (PortfolioBot.num_mom config) in
  exists r st',
    PortfolioBot.run (ConfigOk config settings) equity st = Some (r, st')
    /\ PortfolioBot.budgets_set r = true
    /\ PortfolioBot.daily_risk r = PortfolioBot.plan_daily_risk p
    /\ PortfolioBot.enabled_bots r
       = enabled_momentum_ids config
         ++ (if is_enabled (optionsbot config)
             then [id_of "opt_core" (optionsbot config)] else [])
         ++ (if is_enabled (cryptobot config)
             then [id_of "crypto_core" (cryptobot config)] else [])
    /\ forall w,
         st' !! PortfolioBot.budget_key w "max_daily_loss"
         = if is_enabled (cryptobot config)
              && bool_decide (id_of "crypto_core" (cryptobot config) = w)
           then Some (VNum (PortfolioBot.cry_bucket p))
           else if is_enabled (optionsbot config)
                   && bool_decide (id_of "opt_core" (optionsbot config) = w)
           then Some (VNum (PortfolioBot.opt_bucket p))
           else if decide (w ∈ momentum_ids config) then Some (VNum each)
           else st !! PortfolioBot.budget_key w "max_daily_loss".
Proof.
  intros Hen Hdse p each. unfold PortfolioBot.run. rewrite Hen. cbn [negb].
  rewrite Hdse. cbn [mbind option_bind]. fold p. fold each.
  pose proof (allocate_momentum_lookup (momentum_bots config) each [] st) as Hm.
  pose proof (allocate_momentum_enabled (momentum_bots config) each [] st) as Hme.
  destruct (PortfolioBot.allocate_momentum (momentum_bots config) each [] st)
    as [en1 st1]. cbn [fst snd] in Hm, Hme.
  pose proof (allocate_single_lookup (optionsbot config) "opt_core"
                (PortfolioBot.opt_bucket p) 3 2 en1 st1) as Ho.
  pose proof (allocate_single_enabled (optionsbot config) "opt_core"
                (PortfolioBot.opt_bucket p) 3 2 en1 st1) as Hoe.
  destruct (PortfolioBot.allocate_single (optionsbot config) "opt_core"
              (PortfolioBot.opt_bucket p) 3 2 en1 st1) as [en2 st2].
  cbn [fst snd] in Ho, Hoe.
  pose proof (allocate_single_lookup (cryptobot config) "crypto_core"
                (PortfolioBot.cry_bucket p) 5 3 en2 st2) as Hc.
  pose proof (allocate_single_enabled (cryptobot config) "crypto_core"
                (PortfolioBot.cry_bucket p) 5 3 en2 st2) as Hce.
  destruct (PortfolioBot.allocate_single (cryptobot config) "crypto_core"
              (PortfolioBot.cry_bucket p) 5 3 en2 st2) as [en3 st3].
  cbn [fst snd] in Hc, Hce.
  exists {| PortfolioBot.budgets_set := true;
            PortfolioBot.daily_risk := PortfolioBot.plan_daily_risk p;
            PortfolioBot.enabled_bots := en3;
            PortfolioBot.error := "" |}, st3.
  split; [reflexivity|]. split; [reflexivity|]. split; [reflexivity|]. split.
  - cbn. rewrite Hce, Hoe, Hme. cbn. by rewrite <- app_assoc.
  - intros w. rewrite Hc, Ho, Hm. reflexivity.
Qed.








(** * Further properties *)

(** ** Halt manager: the life of a halt record *)

Section HaltLife.
Context `{PyText}.

Lemma set_halt_lookups (reason : string) (cooloff now : Q) (st : gmap string value) :
  let st1 := HaltManager.set_halt reason cooloff now st in
  st1 !! "halt.active" = Some (VBool true)
  /\ st1 !! "halt.reason" = Some (VStr reason)
  /\ st1 !! "halt.halted_at" = Some (VStr (isoformat now +:+ "Z"))
  /\ st1 !! "halt.expires_at"
     = Some (VStr (isoformat (now + cooloff * 60) +:+ "Z")).
Proof.
  unfold HaltManager.set_halt, set_state. repeat split; by simplify_map_eq.
Qed.

Lemma set_halt_other_keys (reason : string) (cooloff now : Q)
    (st : gmap string value) (k : string) :
  k ∉ halt_keys -> HaltManager.set_halt reason cooloff now st !! k = st !! k.
Proof.
  unfold halt_keys. rewrite !not_elem_of_cons. intros (? & ? & ? & ? & _).
  unfold HaltManager.set_halt, set_state. by rewrite !lookup_insert_ne.
Qed.

Lemma clear_halt_other_keys (st : gmap string value) (k : string) :
  k ∉ halt_keys -> HaltManager.clear_halt st !! k = st !! k.
Proof.
  unfold halt_keys. rewrite !not_elem_of_cons. intros (? & ? & ? & ? & _).
  unfold HaltManager.clear_halt, delete_state. by rewrite !lookup_delete_ne.
Qed.

(** The two outcomes of the lazy expiry check on a record that parses. *)
Lemma clear_if_expired_parsed (later expires : Q) (s : string)
    (st : gmap string value) :
  st !! "halt.expires_at" = Some (VStr s) ->
  s <> "" ->
  fromisoformat (replace_Z s) = Some expires ->
  HaltManager.clear_if_expired later st
  = if Qlt_bool expires later then (true, HaltManager.clear_halt st) else (false, st).
Proof.
  intros Hrec Hs Hparse.
  unfold HaltManager.clear_if_expired, get_state. rewrite Hrec. simpl.
  destruct (String.eqb s "") eqn:E; [apply String.eqb_eq in E; done|].
  simpl. rewrite Hparse. reflexivity.
Qed.

Lemma stamp_nonempty (s : string) : s +:+ "Z" <> "".
Proof. destruct s; discriminate. Qed.

(** X1: a halt set at [now] with a cool-off of [cooloff] minutes is
    reported active by [is_halted()], with the store left as it is, at
    every instant up to and including [now + 60 * cooloff] seconds, and
    is reported inactive and deleted at every later instant. *)
Theorem halt_lasts_for_cooloff (reason : string) (cooloff now later : Q)
    (st : gmap string value) :
  let expires := now + cooloff * 60 in
  let st1 := HaltManager.set_halt reason cooloff now st in
  fromisoformat (replace_Z (isoformat expires +:+ "Z")) = Some expires ->
  (later <= expires -> HaltManager.is_halted later st1 = (true, st1))
  /\ (expires < later ->
      HaltManager.is_halted later st1 = (false, HaltManager.clear_halt st1)
      /\ no_halt_keys (HaltManager.clear_halt st1)).
Proof.
  intros expires st1 Hparse.
  destruct (set_halt_lookups reason cooloff now st) as (Ha & _ & _ & He).
  fold st1 in Ha, He. fold expires in He.
  pose proof (clear_if_expired_parsed later expires _ st1 He
                (stamp_nonempty _) Hparse) as Hc.
  split.
  - intros Hle. unfold HaltManager.is_halted. rewrite Hc.
    apply Qlt_bool_false_iff in Hle. rewrite Hle. simpl.
    unfold get_state. rewrite Ha. reflexivity.
  - intros Hlt. split; [|apply clear_halt_no_keys].
    unfold HaltManager.is_halted. rewrite Hc.
    apply Qlt_bool_iff in Hlt. rewrite Hlt. simpl.
    pose proof (clear_halt_no_keys st1) as Hk.
    unfold no_halt_keys, halt_keys in Hk. rewrite !Forall_cons in Hk.
    destruct Hk as (Hk & _). unfold get_state. rewrite Hk. reflexivity.
Qed.

(** X2: a second [set_halt] replaces the record of the first one: the
    store is the one a single call would leave, and [get_status()]
    reports the last reason. *)
Theorem last_halt_wins (r1 r2 : string) (c1 c2 t1 t2 : Q) (st : gmap string value) :
  HaltManager.set_halt r2 c2 t2 (HaltManager.set_halt r1 c1 t1 st)
  = HaltManager.set_halt r2 c2 t2 st
  /\ HaltManager.get_status
       (HaltManager.set_halt r2 c2 t2 (HaltManager.set_halt r1 c1 t1 st))
     = {| HaltManager.active := true;
          HaltManager.reason := VStr r2;
          HaltManager.halted_at := VStr (isoformat t2 +:+ "Z");
          HaltManager.expires_at := VStr (isoformat (t2 + c2 * 60) +:+ "Z") |}.
Proof.
  assert (Heq : HaltManager.set_halt r2 c2 t2 (HaltManager.set_halt r1 c1 t1 st)
                = HaltManager.set_halt r2 c2 t2 st).
  { apply map_eq. intros k.
    unfold HaltManager.set_halt, set_state.
    destruct (decide (k = "halt.expires_at")) as [->|?]; [by simplify_map_eq|].
    destruct (decide (k = "halt.halted_at")) as [->|?]; [by simplify_map_eq|].
    destruct (decide (k = "halt.reason")) as [->|?]; [by simplify_map_eq|].
    destruct (decide (k = "halt.active")) as [->|?]; [by simplify_map_eq|].
    by rewrite !lookup_insert_ne. }
  split; [exact Heq|]. rewrite Heq.
  destruct (set_halt_lookups r2 c2 t2 st) as (Ha & Hr & Hh & He).
  unfold HaltManager.get_status, get_state. rewrite Ha, Hr, Hh, He.
  unfold py_or. simpl. destruct (String.eqb r2 "") eqn:E; simpl; [|reflexivity].
  apply String.eqb_eq in E. subst r2. reflexivity.
Qed.

Lemma is_halted_frame_keys (now : Q) (st : gmap string value) :
  forall k, k ∉ halt_keys -> (HaltManager.is_halted now st).2 !! k = st !! k.
Proof.
  intros k Hk.
  assert (Hcases : (HaltManager.clear_if_expired now st).2 = st
                   \/ (HaltManager.clear_if_expired now st).2
                      = HaltManager.clear_halt st).
  { unfold HaltManager.clear_if_expired. repeat (case_match; simpl; auto). }
  unfold HaltManager.is_halted. cbn [snd].
  destruct Hcases as [E|E]; rewrite E; [done|]. by apply clear_halt_other_keys.
Qed.

(** X3: [is_halted()] changes no key outside the halt record; when it
    reports an active halt it leaves the store as it is; otherwise it
    leaves the store as it is or deletes the whole record. *)
Theorem is_halted_frame (now : Q) (st : gmap string value) :
  let r := HaltManager.is_halted now st in
  (forall k, k ∉ halt_keys -> r.2 !! k = st !! k)
  /\ (r.1 = true -> r.2 = st)
  /\ (r.2 = st \/ (r.1 = false /\ no_halt_keys r.2)).
Proof.
  assert (Hcases : (HaltManager.clear_if_expired now st).2 = st
                   \/ (HaltManager.clear_if_expired now st).2
                      = HaltManager.clear_halt st).
  { unfold HaltManager.clear_if_expired. repeat (case_match; simpl; auto). }
  unfold HaltManager.is_halted. cbn [fst snd].
  destruct Hcases as [E|E]; rewrite E.
  - split; [done|]. split; [done|]. by left.
  - pose proof (clear_halt_no_keys st) as Hk.
    assert (Hf : truthy (py_or (get_state (HaltManager.clear_halt st)
                                  "halt.active" (VBool false)) (VBool false)) = false).
    { unfold no_halt_keys, halt_keys in Hk. rewrite !Forall_cons in Hk.
      destruct Hk as (Hk' & _). unfold get_state. rewrite Hk'. reflexivity. }
    rewrite Hf. split; [intros k Hk'; by apply clear_halt_other_keys|].
    split; [discriminate|]. right. done.
Qed.

(** X4: a halt whose active flag is set but whose expiry is absent,
    empty, not a string or does not parse never expires: [is_halted()]
    reports it at every instant and leaves the store as it is. *)
Theorem halt_without_expiry_is_permanent (later : Q) (st : gmap string value) :
  truthy (get_state st "halt.active" (VBool false)) = true ->
  (forall s, st !! "halt.expires_at" = Some (VStr s) ->
             s = "" \/ fromisoformat (replace_Z s) = None) ->
  HaltManager.is_halted later st = (true, st).
Proof.
  intros Hact Hexp.
  assert (Hc : HaltManager.clear_if_expired later st = (false, st)).
  { unfold HaltManager.clear_if_expired, get_state.
    destruct (st !! "halt.expires_at") as [v|] eqn:E; [|reflexivity].
    destruct v as [|b|q|s]; simpl; try reflexivity.
    - destruct b; reflexivity.
    - destruct (Qeq_bool q 0); reflexivity.
    - destruct (Hexp s eq_refl) as [->|Hp]; [reflexivity|].
      rewrite Hp. destruct (String.eqb s ""); reflexivity. }
  unfold HaltManager.is_halted. rewrite Hc. simpl.
  unfold py_or. rewrite Hact. rewrite Hact. reflexivity.
Qed.

End HaltLife.

Lemma halt_lasts_for_cooloff_witness :
  @HaltManager.is_halted table_text 1704070800 halted_until_1am
  = (true, halted_until_1am).
Proof.
  apply (@halt_lasts_for_cooloff table_text "MAX_DAILY_LOSS: test" 60
           1704067200 1704070800 ∅).
  - vm_compute. reflexivity.
  - vm_compute. discriminate.
Defined.

Lemma is_halted_frame_witness :
  (@HaltManager.is_halted table_text 1704070801 halted_until_1am).2
    !! "day_start_equity"
  = halted_until_1am !! "day_start_equity".
Proof.
  apply (@is_halted_frame table_text 1704070801 halted_until_1am).
  vm_compute. intros Hin. repeat (apply elem_of_cons in Hin as [Hin|Hin]; [discriminate|]).
  by apply elem_of_nil in Hin.
Defined.

Lemma halt_without_expiry_is_permanent_witness :
  @HaltManager.is_halted table_text 1704070801 {[ "halt.active" := VBool true ]}
  = (true, {[ "halt.active" := VBool true ]}).
Proof.
  apply (@halt_without_expiry_is_permanent table_text).
  - reflexivity.
  - intros s Hs. vm_compute in Hs. discriminate.
Defined.

(** ** Health monitor: counting failures *)

Section HealthCounting.
Context `{PyText}.

Lemma record_api_failure_counts (error : string) (now n : Q)
    (st : gmap string value) :
  get_state st "health.api_failure_count" (VNum 0) = VNum n ->
  exists st' m,
    HealthMonitor.record_api_failure error now st = Some st'
    /\ st' !! "health.api_failure_count" = Some (VNum m)
    /\ m == n + 1
    /\ forall k, k <> "health.api_failure_count" -> k <> "health.last_api_failure" ->
                 st' !! k = st !! k.
Proof.
  intros Hn. destruct (failure_count_read n st Hn) as (c & Hc & Hcn).
  unfold HealthMonitor.record_api_failure. rewrite Hc. simpl.
  do 2 eexists. split; [reflexivity|]. unfold set_state.
  split; [by simplify_map_eq|]. split; [by rewrite Hcn|].
  intros k H1 H2. by rewrite !lookup_insert_ne.
Qed.

Lemma record_failures_count (calls : list (string * Q)) (n : Q)
    (st : gmap string value) :
  get_state st "health.api_failure_count" (VNum 0) = VNum n ->
  exists st' m,
    record_failures calls st = Some st'
    /\ get_state st' "health.api_failure_count" (VNum 0) = VNum m
    /\ m == n + inject_Z (Z.of_nat (length calls))
    /\ forall k, k <> "health.api_failure_count" ->
                 k <> "health.last_api_failure" -> st' !! k = st !! k.
Proof.
  revert n st. induction calls as [|[error now] rest IH]; intros n st Hn.
  - exists st, n. split; [reflexivity|]. split; [exact Hn|].
    split; [cbn; ring|]. done.
  - destruct (record_api_failure_counts error now n st Hn)
      as (st1 & m1 & Hrun & Hm1 & Hm1n & Hframe1).
    assert (Hn1 : get_state st1 "health.api_failure_count" (VNum 0) = VNum m1).
    { unfold get_state. rewrite Hm1. reflexivity. }
    destruct (IH m1 st1 Hn1) as (st' & m & Hrest & Hm & Hmn & Hframe).
    exists st', m. cbn [record_failures]. rewrite Hrun. cbn [mbind option_bind].
    split; [exact Hrest|]. split; [exact Hm|]. split.
    + rewrite Hmn, Hm1n. cbn [length]. rewrite Nat2Z.inj_succ. unfold Z.succ.
      rewrite inject_Z_plus. change (inject_Z 1) with 1. ring.
    + intros k H1 H2. rewrite Hframe by done. by apply Hframe1.
Qed.


(** X6: from a store with no failure count and no price tick, after any
    sequence of recorded failures the snapshot is ok exactly when the
    number of failures is below [max_api_failures_in_window]. *)
Theorem failures_trip_health (calls : list (string * Q)) (settings : Settings)
    (now : Q) (st : gmap string value) :
  st !! "health.api_failure_count" = None ->
  st !! "health.last_price_tick" = None ->
  exists st' snap,
    record_failures calls st = Some st'
    /\ HealthMonitor.get_snapshot settings now st' = Some snap
    /\ HealthMonitor.api_failures snap == inject_Z (Z.of_nat (length calls))
    /\ (HealthMonitor.ok snap = true <->
        inject_Z (Z.of_nat (length calls))
        < getd (health_max_api_failures_in_window settings) 5).
Proof.
  intros Hc Ht.
  assert (Hn : get_state st "health.api_failure_count" (VNum 0) = VNum 0).
  { unfold get_state. rewrite Hc. reflexivity. }
  destruct (record_failures_count calls 0 st Hn)
    as (st' & m & Hrun & Hm & Hmn & Hframe).
  destruct (snapshot_characterised settings now m st' Hm)
    as (snap & Hsnap & Hfail & _ & Hok).
  assert (Htick : get_state st' "health.last_price_tick" VNull = VNull).
  { unfold get_state. rewrite Hframe by done. rewrite Ht. reflexivity. }
  rewrite Htick in Hok. rewrite Qplus_0_l in Hmn.
  exists st', snap. split; [exact Hrun|]. split; [exact Hsnap|].
  split; [by rewrite Hfail|].
  rewrite Hok, Hmn. split; [tauto|]. intros Hlt. split; [exact Hlt|]. by left.
Qed.

End HealthCounting.


Lemma failures_trip_health_witness :
  exists st' snap,
    @record_failures table_text
      [("e", 1704067200); ("e", 1704067200); ("e", 1704067200);
       ("e", 1704067200); ("e", 1704067200)] ∅ = Some st'
    /\ @HealthMonitor.get_snapshot table_text default_settings 1704067200 st' = Some snap
    /\ HealthMonitor.ok snap = false.
Proof.
  destruct (@failures_trip_health table_text
              [("e", 1704067200); ("e", 1704067200); ("e", 1704067200);
               ("e", 1704067200); ("e", 1704067200)]
              default_settings 1704067200 ∅)
    as (st' & snap & Hrun & Hsnap & _ & Hok).
  - reflexivity.
  - reflexivity.
  - exists st', snap. split; [exact Hrun|]. split; [exact Hsnap|].
    destruct (HealthMonitor.ok snap); [|reflexivity].
    exfalso. destruct Hok as [Hok _]. specialize (Hok eq_refl).
    revert Hok. vm_compute. discriminate.
Defined.

(** ** Risk helpers: position sizing and the other round trip *)







(** ** Market clock *)

(** X9: the regular session lies within the extended session, and
    neither is open on a Saturday or a Sunday; the regular session
    includes its two ends, 09:30 and 16:00. *)
Theorem market_hours_within_extended (now : MarketClock.LocalTime) :
  (MarketClock.is_market_hours now = true -> MarketClock.is_extended_hours now = true)
  /\ ((5 <= MarketClock.weekday now)%nat ->
      MarketClock.is_market_hours now = false
      /\ MarketClock.is_extended_hours now = false)
  /\ ((MarketClock.weekday now < 5)%nat ->
      (MarketClock.is_market_hours now = true <->
       (MarketClock.time 9 30 <= MarketClock.time_of_day now <= MarketClock.time 16 0)%N)).
Proof.
  unfold MarketClock.is_market_hours, MarketClock.is_extended_hours.
  split; [|split].
  - destruct (5 <=? MarketClock.weekday now)%nat; [discriminate|].
    rewrite !andb_true_iff, !N.leb_le. unfold MarketClock.time. lia.
  - intros Hw. apply Nat.leb_le in Hw. rewrite Hw. done.
  - intros Hw. apply Nat.leb_gt in Hw. rewrite Hw.
    rewrite andb_true_iff, !N.leb_le. reflexivity.
Qed.

Lemma market_hours_within_extended_witness :
  MarketClock.is_extended_hours
    {| MarketClock.weekday := 2; MarketClock.time_of_day := MarketClock.time 16 0 |}
  = true.
Proof.
  destruct (market_hours_within_extended
              {| MarketClock.weekday := 2;
                 MarketClock.time_of_day := MarketClock.time 16 0 |}) as [Hin _].
  apply Hin. reflexivity.
Defined.

(** ** Kill-switch: what every run keeps *)

Section ExitBotMore.
Context `{PyText}.

(** X10: in every result of [run], [should_continue] is the negation of
    [is_halted] and [equity] is the equity passed in; a run that
    continues reports [pnl = equity - day_start_equity] and an empty
    reason, and has changed no key of the store outside the halt
    record. *)
Theorem exitbot_result_invariants (load : ConfigLoad) (alpaca : Alpaca)
    (now equity day_start_equity : Q) (st st' : gmap string value)
    (r : ExitBot.ExitBotResult) :
  ExitBot.run load alpaca now equity day_start_equity st = Some (r, st') ->
  ExitBot.should_continue r = negb (ExitBot.is_halted r)
  /\ ExitBot.equity r = equity
  /\ (ExitBot.should_continue r = true ->
      ExitBot.pnl r = equity - day_start_equity
      /\ ExitBot.halt_reason r = VStr ""
      /\ forall k, k ∉ halt_keys -> st' !! k = st !! k).
Proof.
  unfold ExitBot.run. destruct load as [e|config settings].
  { intros [= <- <-]. cbn. split; [reflexivity|]. split; [reflexivity|]. discriminate. }
  cbv zeta. destruct (negb (getd (eb_enabled (exitbot config)) true)).
  { intros [= <- <-]. cbn. repeat split; reflexivity. }
  pose proof (is_halted_frame_keys now st) as Hframe.
  destruct (HaltManager.is_halted now st) as [halted st1]. cbn [snd] in Hframe.
  destruct halted.
  { intros [= <- <-]. cbn. split; [reflexivity|]. split; [reflexivity|]. discriminate. }
  destruct (HealthMonitor.get_snapshot settings now st1) as [health|];
    [|discriminate]. cbn [mbind option_bind].
  destruct (negb (HealthMonitor.ok health)
            && getd (eb_api_failure_halt (exitbot config)) true).
  { intros [= <- <-]. cbn. split; [reflexivity|]. split; [reflexivity|]. discriminate. }
  destruct (Qle_bool (equity - day_start_equity)
              (- dollars_from_pct day_start_equity
                   (getd (risk_global_max_daily_loss_pct settings) 1))
            && getd (eb_max_daily_loss_halt (exitbot config)) true).
  { intros [= <- <-]. cbn. split; [reflexivity|]. split; [reflexivity|]. discriminate. }
  intros [= <- <-]. cbn. repeat split; try reflexivity. exact Hframe.
Qed.

(** X11: a kill-switch that is disabled, or whose two conditions are
    both disabled while no halt is active, never halts: whatever the
    health and the loss are, the run continues and writes no halt. *)
Theorem no_halt_without_conditions (config : BotsConfig) (settings : Settings)
    (alpaca : Alpaca) (now equity day_start_equity : Q) (st : gmap string value) :
  (getd (eb_enabled (exitbot config)) true = false ->
   exists r,
     ExitBot.run (ConfigOk config settings) alpaca now equity day_start_equity st
     = Some (r, st)
     /\ ExitBot.should_continue r = true)
  /\ (getd (eb_enabled (exitbot config)) true = true ->
      getd (eb_api_failure_halt (exitbot config)) true = false ->
      getd (eb_max_daily_loss_halt (exitbot config)) true = false ->
      (HaltManager.is_halted now st).1 = false ->
      is_Some (HealthMonitor.get_snapshot settings now (HaltManager.is_halted now st).2) ->
      exists r,
        ExitBot.run (ConfigOk config settings) alpaca now equity day_start_equity st
        = Some (r, (HaltManager.is_halted now st).2)
        /\ ExitBot.should_continue r = true).
Proof.
  split.
  - intros Hen. unfold ExitBot.run. cbv zeta. rewrite Hen. cbn.
    eexists. split; reflexivity.
  - intros Hen Hk1 Hk2 Hh [health Hs]. unfold ExitBot.run. cbv zeta.
    rewrite Hen, Hk1, Hk2. cbn [negb].
    destruct (HaltManager.is_halted now st) as [halted st1].
    cbn [fst snd] in Hh, Hs. subst halted. rewrite Hs. cbn [mbind option_bind].
    rewrite !andb_false_r. eexists. split; reflexivity.
Qed.

(** X12: the reason persisted by a halt is the bare cause, without the
    outcome of the liquidation; the reason returned is the persisted one,
    followed by [+ FLATTEN_FAILED: <error>] when the liquidation was
    attempted and failed.  Absent credentials leave the returned reason
    of a health halt unchanged. *)
Theorem health_halt_reasons (config : BotsConfig) (settings : Settings)
    (alpaca : Alpaca) (now equity day_start_equity : Q)
    (st st1 : gmap string value) (health : HealthMonitor.HealthSnapshot) :
  getd (eb_enabled (exitbot config)) true = true ->
  getd (eb_api_failure_halt (exitbot config)) true = true ->
  HaltManager.is_halted now st = (false, st1) ->
  HealthMonitor.get_snapshot settings now st1 = Some health ->
  HealthMonitor.ok health = false ->
  let cause := "HEALTH_FAIL: " +:+ HealthMonitor.reason health in
  exists r st',
    ExitBot.run (ConfigOk config settings) alpaca now equity day_start_equity st
    = Some (r, st')
    /\ ExitBot.is_halted r = true
    /\ st' !! "halt.active" = Some (VBool true)
    /\ st' !! "halt.reason" = Some (VStr cause)
    /\ ExitBot.halt_reason r
       = VStr (if has_credentials alpaca && negb (fl_success (flatten alpaca))
               then cause +:+ " + FLATTEN_FAILED: " +:+ fl_error (flatten alpaca)
               else cause).
Proof.
  intros Hen Hkill Hhalt Hsnap Hbad cause.
  unfold ExitBot.run. cbv zeta. rewrite Hen, Hhalt. cbn [negb].
  rewrite Hsnap. cbn [mbind option_bind]. rewrite Hbad, Hkill. cbn [negb andb].
  fold cause. do 2 eexists. split; [reflexivity|]. cbn.
  destruct (set_halt_lookups cause (getd (eb_cooloff_minutes (exitbot config)) 60)
              now st1) as (Ha & Hr & _).
  split; [reflexivity|]. split; [exact Ha|]. split; [exact Hr|].
  unfold ExitBot.flatten_after_health.
  destruct (has_credentials alpaca); [|reflexivity].
  destruct (fl_success (flatten alpaca)); reflexivity.
Qed.

(** X13: while a halt set by [set_halt] lasts, [run] does not continue:
    it reports the halt with the persisted reason and a pnl of [0], and
    leaves the store as it is. *)
Theorem run_while_halted (config : BotsConfig) (settings : Settings)
    (alpaca : Alpaca) (reason : string) (cooloff now later equity day_start_equity : Q)
    (st : gmap string value) :
  let expires := now + cooloff * 60 in
  let st1 := HaltManager.set_halt reason cooloff now st in
  getd (eb_enabled (exitbot config)) true = true ->
  fromisoformat (replace_Z (isoformat expires +:+ "Z")) = Some expires ->
  later <= expires ->
  ExitBot.run (ConfigOk config settings) alpaca later equity day_start_equity st1
  = Some ({| ExitBot.should_continue := false;
             ExitBot.is_halted := true;
             ExitBot.halt_reason := VStr reason;
             ExitBot.equity := equity;
             ExitBot.pnl := 0 |}, st1).
Proof.
  intros expires st1 Hen Hparse Hle.
  assert (Hh : HaltManager.is_halted later st1 = (true, st1)).
  { destruct (set_halt_lookups reason cooloff now st) as (Ha & _ & _ & He).
    fold st1 in Ha, He. fold expires in He.
    unfold HaltManager.is_halted.
    rewrite (clear_if_expired_parsed later expires _ st1 He (stamp_nonempty _) Hparse).
    apply Qlt_bool_false_iff in Hle. rewrite Hle. cbn [snd].
    unfold get_state. rewrite Ha. reflexivity. }
  unfold ExitBot.run. cbv zeta. rewrite Hen, Hh. cbn [negb].
  destruct (set_halt_lookups reason cooloff now st) as (_ & Hr & _).
  fold st1 in Hr.
  unfold HaltManager.get_status, get_state. rewrite Hr. cbn.
  unfold py_or. cbn. destruct (String.eqb reason "") eqn:E; cbn; [|reflexivity].
  apply String.eqb_eq in E. subst reason. reflexivity.
Qed.

End ExitBotMore.

Lemma exitbot_result_invariants_witness :
  exists r st',
    @ExitBot.run table_text (ConfigOk default_config two_percent) steady_broker
      1704067200 9850 10000 five_failures = Some (r, st')
    /\ ExitBot.should_continue r = negb (ExitBot.is_halted r).
Proof.
  destruct (@ExitBot.run table_text (ConfigOk default_config two_percent) steady_broker
              1704067200 9850 10000 five_failures) as [[r st']|] eqn:E;
    [|vm_compute in E; discriminate].
  exists r, st'. split; [reflexivity|].
  apply (@exitbot_result_invariants table_text _ _ _ _ _ _ _ _ E).
Defined.

Lemma no_halt_without_conditions_witness :
  exists r,
    @ExitBot.run table_text (ConfigOk conditions_off two_percent) steady_broker
      1704067200 5000 10000 five_failures
    = Some (r, (@HaltManager.is_halted table_text 1704067200 five_failures).2)
    /\ ExitBot.should_continue r = true.
Proof.
  apply (@no_halt_without_conditions table_text conditions_off two_percent steady_broker
           1704067200 5000 10000 five_failures).
  - reflexivity.
  - reflexivity.
  - reflexivity.
  - vm_compute. reflexivity.
  - vm_compute. eexists. reflexivity.
Defined.

Lemma health_halt_reasons_witness :
  exists r st',
    @ExitBot.run table_text (ConfigOk default_config default_settings) stuck_broker
      1704067200 10000 10000 five_failures = Some (r, st')
    /\ ExitBot.is_halted r = true
    /\ st' !! "halt.reason"
       = Some (VStr ("HEALTH_FAIL: API failures (" +:+ fraction 5 +:+ ") >= max ("
                     +:+ fraction 5 +:+ ")")).
Proof.
  edestruct (@health_halt_reasons table_text default_config default_settings
               stuck_broker 1704067200 10000 10000 five_failures five_failures)
    as (r & st' & Hrun & Hh & _ & Hr & _).
  - reflexivity.
  - reflexivity.
  - vm_compute. reflexivity.
  - vm_compute. reflexivity.
  - reflexivity.
  - exists r, st'. split; [exact Hrun|]. split; [exact Hh|]. exact Hr.
Defined.

Lemma run_while_halted_witness :
  ExitBot.is_halted <$> (fst <$>
    @ExitBot.run table_text (ConfigOk default_config default_settings) steady_broker
      1704070000 10000 10000 halted_until_1am)
  = Some true.
Proof.
  unfold halted_until_1am.
  rewrite (@run_while_halted table_text default_config default_settings steady_broker
             "MAX_DAILY_LOSS: test" 60 1704067200 1704070000 10000 10000 ∅).
  - reflexivity.
  - reflexivity.
  - vm_compute. reflexivity.
  - vm_compute. discriminate.
Defined.

(** ** Budget allocator: what a run writes *)

Lemma bots_key_inj (a b f g : string) :
  dotfree f = true -> dotfree g = true ->
  PortfolioBot.bots_key a f = PortfolioBot.bots_key b g -> a = b /\ f = g.
Proof.
  intros Hf Hg E. unfold PortfolioBot.bots_key in E. cbn in E.
  injection E as E. by apply split_last_dot.
Qed.

Lemma prefix_app (s t : string) : String.prefix s (s +:+ t) = true.
Proof.
  induction s as [|a s IH]; [destruct t; reflexivity|].
  change (String.prefix (String a s) (String a (s +:+ t)) = true).
  simpl. destruct (ascii_dec a a); [exact IH|congruence].
Qed.

Lemma allocator_key_budget (id f : string) :
  allocator_key (PortfolioBot.budget_key id f) = true.
Proof.
  unfold allocator_key, PortfolioBot.budget_key. by rewrite prefix_app.
Qed.

Lemma allocator_key_bots (id f : string) :
  allocator_key (PortfolioBot.bots_key id f) = true.
Proof.
  unfold allocator_key, PortfolioBot.bots_key. rewrite (prefix_app "bots.").
  apply orb_true_r.
Qed.

Ltac key_ne :=
  let E := fresh "E" in
  intros E;
  first
    [ apply budget_key_inj in E; [|reflexivity|reflexivity];
      destruct E; first [congruence|discriminate]
    | apply bots_key_inj in E; [|reflexivity|reflexivity];
      destruct E; first [congruence|discriminate]
    | apply bots_key_not_budget_key in E; contradiction
    | symmetry in E; apply bots_key_not_budget_key in E; contradiction ].

Lemma persist_budget_frame (id : string) (x t c : Q) (e : bool)
    (st : gmap string value) (k : string) :
  allocator_key k = false ->
  PortfolioBot.persist_budget id x t c e st !! k = st !! k.
Proof.
  intros Hk. unfold PortfolioBot.persist_budget, set_state.
  rewrite !lookup_insert_ne; [done|..];
    intros <-; first [rewrite allocator_key_budget in Hk
                     |rewrite allocator_key_bots in Hk]; discriminate.
Qed.

Lemma persist_budget_record (id w : string) (x t c : Q) (e : bool)
    (st : gmap string value) :
  budget_record st w \/ w = id ->
  budget_record (PortfolioBot.persist_budget id x t c e st) w.
Proof.
  intros Hw. destruct (decide (w = id)) as [->|Hne].
  - exists x. unfold PortfolioBot.persist_budget, set_state.
    split; [|split].
    + rewrite !lookup_insert_ne by key_ne. apply lookup_insert_eq.
    + rewrite !lookup_insert_ne by key_ne. apply lookup_insert_eq.
    + rewrite !lookup_insert_ne by key_ne. apply lookup_insert_eq.
  - destruct Hw as [(y & H1 & H2 & H3)|?]; [|done].
    exists y. unfold PortfolioBot.persist_budget, set_state.
    rewrite !lookup_insert_ne by key_ne. done.
Qed.

Lemma allocate_momentum_frame (bots : list BotConfig) (each : Q)
    (en : list string) (st : gmap string value) (k : string) :
  allocator_key k = false ->
  (PortfolioBot.allocate_momentum bots each en st).2 !! k = st !! k.
Proof.
  intros Hk. revert en st. induction bots as [|bot rest IH]; intros en st; cbn.
  - done.
  - rewrite IH. by apply persist_budget_frame.
Qed.

Lemma allocate_momentum_records (bots : list BotConfig) (each : Q)
    (en : list string) (st : gmap string value) (w : string) :
  budget_record st w \/ w ∈ map (id_of "") bots ->
  budget_record (PortfolioBot.allocate_momentum bots each en st).2 w.
Proof.
  revert en st. induction bots as [|bot rest IH]; intros en st Hw; cbn.
  - destruct Hw as [?|Hw]; [done|]. by apply elem_of_nil in Hw.
  - apply IH. cbn in Hw. rewrite elem_of_cons in Hw.
    destruct Hw as [Hw|[Hw|Hw]].
    + left. apply persist_budget_record. by left.
    + left. apply persist_budget_record. right. exact Hw.
    + by right.
Qed.

Lemma allocate_single_frame (bot : BotConfig) (d : string) (bucket t c : Q)
    (en : list string) (st : gmap string value) (k : string) :
  allocator_key k = false ->
  (PortfolioBot.allocate_single bot d bucket t c en st).2 !! k = st !! k.
Proof.
  intros Hk. unfold PortfolioBot.allocate_single.
  destruct (getd (bot_enabled bot) false); cbn; [|done].
  by apply persist_budget_frame.
Qed.

Lemma allocate_single_records (bot : BotConfig) (d : string) (bucket t c : Q)
    (en : list string) (st : gmap string value) (w : string) :
  budget_record st w \/ (is_enabled bot = true /\ w = id_of d bot) ->
  budget_record (PortfolioBot.allocate_single bot d bucket t c en st).2 w.
Proof.
  unfold PortfolioBot.allocate_single, is_enabled.
  destruct (getd (bot_enabled bot) false); cbn.
  - intros [Hw|[_ Hw]]; apply persist_budget_record; [by left|by right].
  - intros [Hw|[? _]]; done.
Qed.

(** X14: a run of the allocator changes no key outside the namespaces
    [budgets.] and [bots.]; a run that does not set budgets (the
    configuration fails to load, or the allocator is disabled) writes
    nothing at all and enables no worker. *)
Theorem allocator_writes_only_its_keys (load : ConfigLoad) (equity : Q)
    (st st' : gmap string value) (r : PortfolioBot.PortfolioBotResult) :
  PortfolioBot.run load equity st = Some (r, st') ->
  (forall k, allocator_key k = false -> st' !! k = st !! k)
  /\ (PortfolioBot.budgets_set r = false ->
      st' = st /\ PortfolioBot.enabled_bots r = []
      /\ PortfolioBot.daily_risk r = 0).
Proof.
  unfold PortfolioBot.run. destruct load as [e|config settings].
  { intros [= <- <-]. cbn. done. }
  destruct (negb (getd (pf_enabled (portfoliobot config)) true)).
  { intros [= <- <-]. cbn. done. }
  destruct (as_num _) as [dse|]; [|discriminate]. cbn [mbind option_bind].
  set (p := PortfolioBot.plan config settings dse).
  set (each := PortfolioBot.mom_each _ _ _ _).
  pose proof (allocate_momentum_frame (momentum_bots config) each [] st) as Hm.
  destruct (PortfolioBot.allocate_momentum (momentum_bots config) each [] st)
    as [en1 st1]. cbn [snd] in Hm.
  pose proof (allocate_single_frame (optionsbot config) "opt_core"
                (PortfolioBot.opt_bucket p) 3 2 en1 st1) as Ho.
  destruct (PortfolioBot.allocate_single (optionsbot config) "opt_core"
              (PortfolioBot.opt_bucket p) 3 2 en1 st1) as [en2 st2].
  cbn [snd] in Ho.
  pose proof (allocate_single_frame (cryptobot config) "crypto_core"
                (PortfolioBot.cry_bucket p) 5 3 en2 st2) as Hc.
  destruct (PortfolioBot.allocate_single (cryptobot config) "crypto_core"
              (PortfolioBot.cry_bucket p) 5 3 en2 st2) as [en3 st3].
  cbn [snd] in Hc.
  intros [= <- <-]. cbn. split; [|discriminate].
  intros k Hk. rewrite Hc, Ho, Hm by exact Hk. reflexivity.
Qed.

(** X15: the daily risk is taken from the stored [day_start_equity] when
    that is a number other than zero, and from the current equity when
    it is absent or zero; a stored non-empty string makes the run
    raise. *)
Theorem daily_risk_baseline (config : BotsConfig) (settings : Settings)
    (equity : Q) (st : gmap string value) :
  getd (pf_enabled (portfoliobot config)) true = true ->
  let pct := getd (risk_global_max_daily_loss_pct settings) 1 in
  (forall d, st !! "day_start_equity" = Some (VNum d) -> ~ d == 0 ->
     exists r st',
       PortfolioBot.run (ConfigOk config settings) equity st = Some (r, st')
       /\ PortfolioBot.daily_risk r = dollars_from_pct d pct)
  /\ (st !! "day_start_equity" = None
      \/ (exists d, st !! "day_start_equity" = Some (VNum d) /\ d == 0) ->
      exists r st',
        PortfolioBot.run (ConfigOk config settings) equity st = Some (r, st')
        /\ PortfolioBot.daily_risk r = dollars_from_pct equity pct)
  /\ (forall s, st !! "day_start_equity" = Some (VStr s) -> s <> "" ->
      PortfolioBot.run (ConfigOk config settings) equity st = None).
Proof.
  intros Hen pct. split; [|split].
  - intros d Hd Hne.
    assert (Hb : as_num (py_or (get_state st "day_start_equity" (VNum equity))
                           (VNum equity)) = Some d).
    { unfold get_state, py_or. rewrite Hd. cbn.
      destruct (Qeq_bool d 0) eqn:E; [|reflexivity].
      apply Qeq_bool_iff in E. contradiction. }
    destruct (run_success config settings equity d st Hen Hb)
      as (r & st' & Hrun & _ & Hrisk & _).
    exists r, st'. split; [exact Hrun|]. exact Hrisk.
  - intros Hcase.
    assert (Hb : as_num (py_or (get_state st "day_start_equity" (VNum equity))
                           (VNum equity)) = Some equity).
    { unfold get_state, py_or. destruct Hcase as [->|(d & -> & Hd)].
      - cbn. destruct (Qeq_bool equity 0); reflexivity.
      - cbn. apply Qeq_bool_iff in Hd. rewrite Hd. reflexivity. }
    destruct (run_success config settings equity equity st Hen Hb)
      as (r & st' & Hrun & _ & Hrisk & _).
    exists r, st'. split; [exact Hrun|]. exact Hrisk.
  - intros s Hs Hne. unfold PortfolioBot.run. rewrite Hen. cbn [negb].
    unfold get_state, py_or. rewrite Hs. cbn.
    destruct (String.eqb s "") eqn:E; [apply String.eqb_eq in E; done|].
    reflexivity.
Qed.

(** X16: after every run that sets budgets, each worker it has written
    (every momentum worker, enabled or not, and the options and crypto
    workers when enabled) has a persisted budget, an open risk of twice
    that budget and the permission to trade, also when identifiers
    repeat; the records of other workers stay as they were formed. *)
Theorem allocated_workers_have_records (config : BotsConfig) (settings : Settings)
    (equity day_start_equity : Q) (st : gmap string value) :
  getd (pf_enabled (portfoliobot config)) true = true ->
  as_num (py_or (get_state st "day_start_equity" (VNum equity)) (VNum equity))
  = Some day_start_equity ->
  exists r st',
    PortfolioBot.run (ConfigOk config settings) equity st = Some (r, st')
    /\ PortfolioBot.budgets_set r = true
    /\ (forall w, w ∈ allocated_ids config -> budget_record st' w)
    /\ (forall w, budget_record st w -> budget_record st' w).
Proof.
  intros Hen Hdse. unfold PortfolioBot.run. rewrite Hen. cbn [negb].
  rewrite Hdse. cbn [mbind option_bind].
  set (p := PortfolioBot.plan config settings day_start_equity).
  set (each := PortfolioBot.mom_each _ _ _ _).
  pose proof (allocate_momentum_records (momentum_bots config) each [] st) as Hm.
  destruct (PortfolioBot.allocate_momentum (momentum_bots config) each [] st)
    as [en1 st1]. cbn [snd] in Hm.
  pose proof (allocate_single_records (optionsbot config) "opt_core"
                (PortfolioBot.opt_bucket p) 3 2 en1 st1) as Ho.
  destruct (PortfolioBot.allocate_single (optionsbot config) "opt_core"
              (PortfolioBot.opt_bucket p) 3 2 en1 st1) as [en2 st2].
  cbn [snd] in Ho.
  pose proof (allocate_single_records (cryptobot config) "crypto_core"
                (PortfolioBot.cry_bucket p) 5 3 en2 st2) as Hc.
  destruct (PortfolioBot.allocate_single (cryptobot config) "crypto_core"
              (PortfolioBot.cry_bucket p) 5 3 en2 st2) as [en3 st3].
  cbn [snd] in Hc.
  do 2 eexists. split; [reflexivity|]. split; [reflexivity|]. split.
  - intros w Hw. unfold allocated_ids in Hw. rewrite !elem_of_app in Hw.
    destruct Hw as [Hw|[Hw|Hw]].
    + apply Hc. left. apply Ho. left. apply Hm. right. exact Hw.
    + destruct (is_enabled (optionsbot config)) eqn:Eo;
        [|by apply elem_of_nil in Hw].
      apply list_elem_of_singleton in Hw. apply Hc. left. apply Ho. right. done.
    + destruct (is_enabled (cryptobot config)) eqn:Ec;
        [|by apply elem_of_nil in Hw].
      apply list_elem_of_singleton in Hw. apply Hc. right. done.
  - intros w Hw. apply Hc. left. apply Ho. left. apply Hm. left. exact Hw.
Qed.


Lemma allocator_writes_only_its_keys_witness :
  exists r st',
    PortfolioBot.run (ConfigOk two_momentum default_settings) 10000 halted_until_1am
    = Some (r, st')
    /\ st' !! "halt.active" = halted_until_1am !! "halt.active".
Proof.
  destruct (PortfolioBot.run (ConfigOk two_momentum default_settings) 10000
              halted_until_1am) as [[r st']|] eqn:E;
    [|vm_compute in E; discriminate].
  exists r, st'. split; [reflexivity|].
  apply (allocator_writes_only_its_keys _ _ _ _ _ E). reflexivity.
Defined.

Lemma daily_risk_baseline_witness :
  exists r st',
    PortfolioBot.run (ConfigOk two_momentum default_settings) 10000
      {[ "day_start_equity" := VNum 0 ]} = Some (r, st')
    /\ PortfolioBot.daily_risk r = dollars_from_pct 10000 1.
Proof.
  destruct (daily_risk_baseline two_momentum default_settings 10000
              {[ "day_start_equity" := VNum 0 ]}) as (_ & Hfallback & _).
  - reflexivity.
  - apply Hfallback. right. exists 0. split; reflexivity.
Defined.

Lemma allocated_workers_have_records_witness :
  exists r st',
    PortfolioBot.run (ConfigOk momentum_and_options default_settings) 10000 ∅
    = Some (r, st')
    /\ budget_record st' "opt_core".
Proof.
  destruct (allocated_workers_have_records momentum_and_options default_settings
              10000 10000 ∅) as (r & st' & Hrun & _ & Hrec & _).
  - reflexivity.
  - reflexivity.
  - exists r, st'. split; [exact Hrun|]. apply Hrec.
    vm_compute. repeat (apply elem_of_cons; first [by left|right]).
Defined.


(** ** Orchestrator: the baseline of step 1 *)

Section StepOne.
Context `{PyText}.


(** X19: without credentials step 1 fails at once, with the error
    [ALPACA_KEY and ALPACA_SECRET required], zero equity and baseline
    and no account fetch; it records one API failure and changes no
    other key but the stamp of that failure. *)
Theorem step_one_without_credentials (alpaca : Alpaca) (date_string : string)
    (now n : Q) (st : gmap string value) :
  has_credentials alpaca = false ->
  get_state st "health.api_failure_count" (VNum 0) = VNum n ->
  exists st' m,
    TradingOrchestrator._step_initialize alpaca date_string now st
    = Some ({| TradingOrchestrator.init_ok := false;
               TradingOrchestrator.init_equity := 0;
               TradingOrchestrator.init_day_start_equity := 0;
               TradingOrchestrator.init_error := "ALPACA_KEY and ALPACA_SECRET required";
               TradingOrchestrator.init_trace := None |}, st')
    /\ st' !! "health.api_failure_count" = Some (VNum m)
    /\ m == n + 1
    /\ forall k, k <> "health.api_failure_count" -> k <> "health.last_api_failure" ->
                 st' !! k = st !! k.
Proof.
  intros Hc Hn.
  destruct (record_api_failure_counts "ALPACA_KEY and ALPACA_SECRET required" now n st Hn)
    as (st' & m & Hrun & Hm & Hmn & Hframe).
  exists st', m. unfold TradingOrchestrator._step_initialize.
  rewrite Hc. cbn [negb]. cbv zeta. rewrite Hrun. cbn [mbind option_bind].
  split; [reflexivity|]. split; [exact Hm|]. split; [exact Hmn|]. exact Hframe.
Qed.

End StepOne.


Lemma step_one_without_credentials_witness :
  exists st' m,
    snd <$> @TradingOrchestrator._step_initialize table_text no_credentials
              "2024-01-02" 1704067200 five_failures = Some st'
    /\ st' !! "health.api_failure_count" = Some (VNum m)
    /\ m == 6.
Proof.
  destruct (@step_one_without_credentials table_text no_credentials "2024-01-02"
              1704067200 5 five_failures) as (st' & m & Hrun & Hm & Hmn & _).
  - reflexivity.
  - reflexivity.
  - exists st', m. rewrite Hrun. split; [reflexivity|]. split; [exact Hm|].
    rewrite Hmn. reflexivity.
Defined.

(** ** Orchestrator: the verdict of step 5 *)

Lemma prefix_split (n s : string) :
  String.prefix n s = true -> exists post, s = n +:+ post.
Proof.
  revert s. induction n as [|a n IH]; intros s Hp.
  - exists s. reflexivity.
  - destruct s as [|b s]; simpl in Hp; [discriminate|].
    destruct (ascii_dec a b) as [->|]; [|discriminate].
    destruct (IH s Hp) as [post ->]. exists post. reflexivity.
Qed.

Lemma contains_step (n : string) (c : ascii) (s : string) :
  contains n (String c s) = if String.prefix n (String c s) then true else contains n s.
Proof. reflexivity. Qed.

(** [needle in s] holds exactly when [s] is some text, the needle, some
    text. *)
Lemma contains_spec (n s : string) :
  contains n s = true <-> exists pre post, s = pre +:+ n +:+ post.
Proof.
  split.
  - induction s as [|c s IH].
    + cbn [contains]. destruct (String.prefix n "") eqn:E; [|discriminate].
      intros _. destruct (prefix_split _ _ E) as [post Hp].
      exists "", post. exact Hp.
    + rewrite contains_step. destruct (String.prefix n (String c s)) eqn:E.
      * intros _. destruct (prefix_split _ _ E) as [post Hp].
        exists "", post. exact Hp.
      * intros Hc. destruct (IH Hc) as (pre & post & ->).
        exists (String c pre), post. reflexivity.
  - intros (pre & post & ->). induction pre as [|c pre IH].
    + change ("" +:+ n +:+ post) with (n +:+ post).
      pose proof (prefix_app n post) as Hp.
      destruct (n +:+ post) as [|c s] eqn:E.
      * cbn [contains]. rewrite Hp. reflexivity.
      * rewrite contains_step, Hp. reflexivity.
    + change (String c pre +:+ n +:+ post) with (String c (pre +:+ n +:+ post)).
      rewrite contains_step, IH. by destruct (String.prefix _ _).
Qed.

Section Verdict.
Context `{PyText}.

(** X20: step 5 reports success exactly when a halt is active, or there
    is no error, or no worker ran and some error is of the
    initialization class; it stamps the result with its instant and
    leaves the store as [is_halted()] leaves it. *)
Theorem success_means_safe (bots_run errors : list string) (halt_reason : string)
    (now : Q) (st : gmap string value) :
  let out := TradingOrchestrator._step_finalize bots_run errors halt_reason now st in
  let halted := (HaltManager.is_halted now st).1 in
  (TradingOrchestrator.success out.1 = true <->
   halted = true \/ errors = []
   \/ (bots_run = [] /\ TradingOrchestrator.is_init_error errors = true))
  /\ TradingOrchestrator.timestamp out.1 = isoformat now +:+ "Z"
  /\ out.2 = (HaltManager.is_halted now st).2.
Proof.
  unfold TradingOrchestrator._step_finalize.
  destruct (HaltManager.is_halted now st) as [halted st1]. cbn [fst snd].
  destruct halted.
  { cbn. split; [|done]. split; [by left|done]. }
  destruct errors as [|e errors], bots_run as [|b bots_run]; cbn [length Nat.ltb Nat.leb andb negb].
  - cbn. split; [|done]. split; [intros _; right; by left|done].
  - cbn. split; [|done]. split; [intros _; right; by left|done].
  - destruct (TradingOrchestrator.is_init_error (e :: errors)) eqn:E; cbn.
    + split; [|done]. split; [intros _; right; right; done|done].
    + split; [|done]. split; [discriminate|].
      intros [?|[?|[_ ?]]]; discriminate.
  - cbn. split; [|done]. split; [discriminate|].
    intros [?|[?|[? _]]]; discriminate.
Qed.

(** X21: the errors are of the initialization class exactly when the
    lower-cased text of one of them contains [credentials], [init] or
    [budgets] at any place. *)
Theorem init_class_is_a_substring_test (errors : list string) :
  TradingOrchestrator.is_init_error errors = true
  <-> exists e w pre post,
        e ∈ errors
        /\ w ∈ ["credentials"; "init"; "budgets"]
        /\ lower e = pre +:+ w +:+ post.
Proof.
  unfold TradingOrchestrator.is_init_error. rewrite existsb_exists. split.
  - intros (e & Hin & Hc). apply list_elem_of_In in Hin.
    rewrite !orb_true_iff, !contains_spec in Hc.
    destruct Hc as [[(pre & post & Hc)|(pre & post & Hc)]|(pre & post & Hc)].
    + exists e, "credentials", pre, post. split; [done|]. split; [|done].
      apply elem_of_cons. by left.
    + exists e, "init", pre, post. split; [done|]. split; [|done].
      apply elem_of_cons. right. apply elem_of_cons. by left.
    + exists e, "budgets", pre, post. split; [done|]. split; [|done].
      do 2 (apply elem_of_cons; right). apply elem_of_cons. by left.
  - intros (e & w & pre & post & Hin & Hw & Hl).
    exists e. split; [by apply list_elem_of_In|].
    rewrite !orb_true_iff, !contains_spec.
    rewrite !elem_of_cons in Hw. destruct Hw as [->|[->|[->|Hw]]].
    + left. left. eauto.
    + left. right. eauto.
    + right. eauto.
    + by apply elem_of_nil in Hw.
Qed.

End Verdict.

Lemma init_class_is_a_substring_test_witness :
  TradingOrchestrator.is_init_error ["mom_1: Infinity is no price"] = true.
Proof.
  apply init_class_is_a_substring_test.
  exists "mom_1: Infinity is no price", "init", "mom_1: inf", "y is no price".
  split; [apply elem_of_cons; by left|].
  split; [apply elem_of_cons; right; apply elem_of_cons; by left|].
  reflexivity.
Defined.

(** ** Orchestrator: the loop without credentials *)

Section Loop.
Context `{PyText}.

(** [is_halted()] reads the halt record only. *)
Lemma is_halted_agree (now : Q) (st1 st : gmap string value) :
  (forall k, k ∈ halt_keys -> st1 !! k = st !! k) ->
  (HaltManager.is_halted now st1).1 = (HaltManager.is_halted now st).1.
Proof.
  intros Hagree.
  assert (Hexp : st1 !! "halt.expires_at" = st !! "halt.expires_at").
  { apply Hagree. unfold halt_keys. rewrite !elem_of_cons. tauto. }
  assert (Hact : st1 !! "halt.active" = st !! "halt.active").
  { apply Hagree. unfold halt_keys. rewrite !elem_of_cons. tauto. }
  assert (Hkeep : truthy (py_or (get_state st1 "halt.active" (VBool false)) (VBool false))
                  = truthy (py_or (get_state st "halt.active" (VBool false)) (VBool false))).
  { unfold get_state. rewrite Hact. reflexivity. }
  assert (Hclear : truthy (py_or (get_state (HaltManager.clear_halt st1) "halt.active"
                                    (VBool false)) (VBool false))
                   = truthy (py_or (get_state (HaltManager.clear_halt st) "halt.active"
                                      (VBool false)) (VBool false))).
  { unfold get_state, HaltManager.clear_halt, delete_state. by simplify_map_eq. }
  unfold HaltManager.is_halted, HaltManager.clear_if_expired, get_state.
  rewrite Hexp. cbn [fst].
  destruct (st !! "halt.expires_at") as [v|]; cbn [snd]; [|exact Hkeep].
  destruct (negb (truthy v)); cbn [snd]; [exact Hkeep|].
  destruct v; cbn [snd]; try exact Hkeep.
  destruct (fromisoformat (replace_Z s)) as [expires|]; cbn [snd]; [|exact Hkeep].
  destruct (Qlt_bool expires now); cbn [snd]; [exact Hclear|exact Hkeep].
Qed.

Lemma halt_key_not_allocator (k : string) :
  k ∈ halt_keys -> allocator_key k = false.
Proof.
  unfold halt_keys. rewrite !elem_of_cons.
  intros [->|[->|[->|[->|Hk]]]]; try reflexivity. by apply elem_of_nil in Hk.
Qed.

Lemma halt_key_not_health (k : string) :
  k ∈ halt_keys ->
  k <> "health.api_failure_count" /\ k <> "health.last_api_failure".
Proof.
  unfold halt_keys. rewrite !elem_of_cons.
  intros [->|[->|[->|[->|Hk]]]]; try done. by apply elem_of_nil in Hk.
Qed.

(** X22: a loop run without credentials stops after step 1: whatever
    the configuration and the workers' logic are, no budget is written
    and no worker runs; the result is [HALTED] with success when a halt
    is active and otherwise [ERROR: ALPACA_KEY and ALPACA_SECRET
    required] with failure (the text of that error is not of the
    initialization class). *)
Theorem loop_without_credentials (load : ConfigLoad) (alpaca : Alpaca)
    (strat : ExecutionService.Strategies) (date_string : string)
    (t_init t_exitbot t_execution t_finalize n : Q) (st : gmap string value) :
  has_credentials alpaca = false ->
  get_state st "health.api_failure_count" (VNum 0) = VNum n ->
  exists r st',
    OrchestratorLoop.run_loop load alpaca strat date_string
      t_init t_exitbot t_execution t_finalize st = Some (r, st')
    /\ ((HaltManager.is_halted t_finalize st).1 = false ->
        TradingOrchestrator.status r = "ERROR: ALPACA_KEY and ALPACA_SECRET required"
        /\ TradingOrchestrator.success r = false)
    /\ ((HaltManager.is_halted t_finalize st).1 = true ->
        TradingOrchestrator.status r
        = "HALTED: Init failed: ALPACA_KEY and ALPACA_SECRET required"
        /\ TradingOrchestrator.success r = true)
    /\ (forall k, allocator_key k = true -> st' !! k = st !! k).
Proof.
  intros Hc Hn.
  destruct (record_api_failure_counts "ALPACA_KEY and ALPACA_SECRET required"
              t_init n st Hn) as (st1 & m & Hrun & _ & _ & Hframe).
  assert (Hagree : forall k, k ∈ halt_keys -> st1 !! k = st !! k).
  { intros k Hk. apply halt_key_not_health in Hk as [? ?]. by apply Hframe. }
  pose proof (is_halted_agree t_finalize st1 st Hagree) as Hsame.
  pose proof (is_halted_frame_keys t_finalize st1) as Hfin.
  unfold OrchestratorLoop.run_loop, TradingOrchestrator._step_initialize.
  rewrite Hc. cbn [negb]. cbv zeta. rewrite Hrun.
  cbn [mbind option_bind TradingOrchestrator.init_ok TradingOrchestrator.init_error
       TradingOrchestrator.init_equity TradingOrchestrator.init_day_start_equity
       andb].
  unfold TradingOrchestrator._step_finalize.
  destruct (HaltManager.is_halted t_finalize st1) as [halted st2].
  cbn [fst snd] in Hsame, Hfin. rewrite <- Hsame.
  assert (Hstore : forall k, allocator_key k = true -> st2 !! k = st !! k).
  { intros k Hk. rewrite Hfin.
    - apply Hframe; intros ->; revert Hk; vm_compute; discriminate.
    - intros Hin. apply halt_key_not_allocator in Hin. congruence. }
  assert (Hclass : TradingOrchestrator.is_init_error
                     ["ALPACA_KEY and ALPACA_SECRET required"] = false)
    by (vm_compute; reflexivity).
  destruct halted; cbn [length Nat.ltb Nat.leb andb negb].
  - do 2 eexists. split; [reflexivity|]. cbn.
    split; [discriminate|]. split; [done|exact Hstore].
  - rewrite Hclass. do 2 eexists. split; [reflexivity|]. cbn.
    split; [done|]. split; [discriminate|exact Hstore].
Qed.

End Loop.

Lemma loop_without_credentials_witness :
  exists r st',
    @OrchestratorLoop.run_loop table_text (ConfigOk two_momentum default_settings)
      no_credentials idle_strategies "2024-01-02"
      1704067200 1704067200 1704067200 1704067200 ∅ = Some (r, st')
    /\ TradingOrchestrator.status r = "ERROR: ALPACA_KEY and ALPACA_SECRET required"
    /\ TradingOrchestrator.success r = false.
Proof.
  destruct (@loop_without_credentials table_text
              (ConfigOk two_momentum default_settings) no_credentials idle_strategies
              "2024-01-02" 1704067200 1704067200 1704067200 1704067200 0 ∅)
    as (r & st' & Hrun & Herr & _).
  - reflexivity.
  - reflexivity.
  - exists r, st'. split; [exact Hrun|]. apply Herr. vm_compute. reflexivity.
Defined.

(** ** Execution service: who may run *)

Section Execution.
Context `{PyText}.

Lemma preflight_skipped (strat : ExecutionService.Strategies) (id : string)
    (st : gmap string value) :
  ineligible st id -> ExecutionService.preflight strat id st = ExecutionService.Skipped.
Proof.
  unfold ineligible, flags_set, stored_budget, ExecutionService.preflight.
  intros [Hf|[Hn|(b & Hb & Hle)]].
  - apply andb_false_iff in Hf as [-> | ->]; cbn; [reflexivity|].
    by rewrite orb_true_r.
  - rewrite Hn. destruct (_ || _); reflexivity.
  - destruct (_ || _); [reflexivity|].
    destruct (get_state st _ (VNum 0)) eqn:E; try discriminate; cbn in Hb |- *.
    + injection Hb as <-.
      destruct b0; [exfalso; apply Hle; reflexivity|reflexivity].
    + injection Hb as <-. unfold Qlt_bool.
      apply Qle_bool_iff in Hle. rewrite Hle. reflexivity.
Qed.

Lemma preflight_cleared (strat : ExecutionService.Strategies) (id : string)
    (st : gmap string value) (b : Q) :
  eligible st id b ->
  ExecutionService.preflight strat id st = ExecutionService.Cleared b.
Proof.
  unfold eligible, flags_set, stored_budget, ExecutionService.preflight.
  intros (Hf & Hnn & Hb & Hpos).
  apply andb_true_iff in Hf as [-> ->]. cbn [negb orb].
  destruct (get_state st _ (VNum 0)) eqn:E; try done; cbn in Hb |- *;
    injection Hb as <-; apply Qlt_bool_iff in Hpos; rewrite Hpos; reflexivity.
Qed.

Lemma run_bots_none_eligible (strat : ExecutionService.Strategies)
    (bots : list string) (k : nat) (acc : ExecutionService.ExecutionResult)
    (st : gmap string value) :
  (forall id, id ∈ bots -> ineligible st id) ->
  ExecutionService.run_bots strat k bots acc st = (acc, st).
Proof.
  revert k. induction bots as [|id rest IH]; intros k Hall; cbn; [reflexivity|].
  rewrite preflight_skipped by (apply Hall, elem_of_cons; by left).
  apply IH. intros id' Hin. apply Hall, elem_of_cons. by right.
Qed.

Lemma dispatch_unknown (strat : ExecutionService.Strategies) (k : nat)
    (id : string) (b : Q) (st : gmap string value) :
  unknown_kind id ->
  ExecutionService.dispatch strat k id b st = (ExecutionService.Finished 0 0, st).
Proof.
  intros (H1 & H2 & H3). unfold ExecutionService.dispatch.
  apply String.eqb_neq in H1, H3. rewrite H1, H2, H3. reflexivity.
Qed.

Lemma run_bots_unknown (strat : ExecutionService.Strategies)
    (bots : list string) (k : nat) (acc : ExecutionService.ExecutionResult)
    (st : gmap string value) :
  (forall id, id ∈ bots -> unknown_kind id /\ exists b, eligible st id b) ->
  ExecutionService.run_bots strat k bots acc st
  = ({| ExecutionService.bots_run := ExecutionService.bots_run acc ++ bots;
        ExecutionService.trades_attempted := ExecutionService.trades_attempted acc;
        ExecutionService.positions_managed := ExecutionService.positions_managed acc;
        ExecutionService.errors := ExecutionService.errors acc |}, st).
Proof.
  revert k acc. induction bots as [|id rest IH]; intros k acc Hall; cbn.
  - rewrite app_nil_r. by destruct acc.
  - destruct (Hall id) as (Hu & b & Hb); [apply elem_of_cons; by left|].
    rewrite (preflight_cleared _ _ _ _ Hb), (dispatch_unknown _ _ _ _ _ Hu).
    rewrite IH by (intros id' Hin; apply Hall, elem_of_cons; by right).
    cbn. rewrite !Z.add_0_r, <- app_assoc. reflexivity.
Qed.

(** X23: a worker whose flags are not both set, or whose persisted
    budget is absent, null, zero or negative, is never run: when that
    holds of every worker passed in, [run] calls no trading logic,
    reports no worker and no error, and only records a price tick.
    Whoever runs, [run] ends by resetting the API failure count to
    [0]. *)
Theorem only_funded_workers_run (strat : ExecutionService.Strategies)
    (enabled_bots : list string) (equity now : Q) (st : gmap string value) :
  ((forall id, id ∈ enabled_bots -> ineligible st id) ->
   ExecutionService.run strat enabled_bots equity now st
   = (ExecutionService.nothing_run, HealthMonitor.record_price_tick now st))
  /\ (ExecutionService.run strat enabled_bots equity now st).2
       !! "health.api_failure_count" = Some (VNum 0).
Proof.
  unfold ExecutionService.run. split.
  - intros Hall. rewrite run_bots_none_eligible by exact Hall. reflexivity.
  - destruct (ExecutionService.run_bots strat 0 enabled_bots
                ExecutionService.nothing_run st) as [r st1].
    cbn [snd]. apply price_tick_state.
Qed.

(** X24: a worker that passes the checks but whose identifier is of no
    known kind (not [crypto_core], not [opt_core], no [mom_] prefix) is
    reported as run although no trading logic is called for it: with
    only such workers, [run] reports them all, with no trade, no
    position and no error, and only records a price tick. *)
Theorem unknown_workers_reported_as_run (strat : ExecutionService.Strategies)
    (enabled_bots : list string) (equity now : Q) (st : gmap string value) :
  (forall id, id ∈ enabled_bots -> unknown_kind id /\ exists b, eligible st id b) ->
  ExecutionService.run strat enabled_bots equity now st
  = ({| ExecutionService.bots_run := enabled_bots;
        ExecutionService.trades_attempted := 0;
        ExecutionService.positions_managed := 0;
        ExecutionService.errors := [] |},
     HealthMonitor.record_price_tick now st).
Proof.
  intros Hall. unfold ExecutionService.run.
  rewrite run_bots_unknown by exact Hall. reflexivity.
Qed.

End Execution.

Lemma only_funded_workers_run_witness :
  @ExecutionService.run table_text idle_strategies ["mom_1"; "opt_core"] 10000
    1704067200 ∅
  = (ExecutionService.nothing_run,
     @HealthMonitor.record_price_tick table_text 1704067200 ∅).
Proof.
  apply (@only_funded_workers_run table_text idle_strategies ["mom_1"; "opt_core"]
           10000 1704067200 ∅).
  intros id _. left. reflexivity.
Defined.

Lemma unknown_workers_reported_as_run_witness :
  ExecutionService.bots_run
    (@ExecutionService.run table_text idle_strategies ["scalper"] 10000
       1704067200 scalper_store).1
  = ["scalper"].
Proof.
  rewrite (@unknown_workers_reported_as_run table_text idle_strategies ["scalper"]
             10000 1704067200 scalper_store); [reflexivity|].
  intros id Hin. apply list_elem_of_singleton in Hin as ->. split.
  - split; [discriminate|]. split; [reflexivity|discriminate].
  - exists 25. split; [vm_compute; reflexivity|].
    split; [vm_compute; discriminate|]. split; [vm_compute; reflexivity|reflexivity].
Defined.

(** ** The HTTP layer: attempts, waits and the failure count *)

Section Request.
Context `{PyText}.
Context {Payload : Type}.



End Request.


(** ** Configuration loaders: the cache *)

Lemma dict_get_set_eq (key : string) (v : Config.yaml) (d : list (string * Config.yaml)) :
  Config.dict_get key (Config.dict_set key v d) = Some v.
Proof.
  induction d as [|[k w] d IH]; cbn.
  - by rewrite String.eqb_refl.
  - destruct (String.eqb k key) eqn:E; cbn; rewrite E; [reflexivity|exact IH].
Qed.

Lemma dict_get_set_ne (key key' : string) (v : Config.yaml)
    (d : list (string * Config.yaml)) :
  key <> key' ->
  Config.dict_get key' (Config.dict_set key v d) = Config.dict_get key' d.
Proof.
  intros Hne. induction d as [|[k w] d IH]; cbn.
  - apply String.eqb_neq in Hne. by rewrite Hne.
  - destruct (String.eqb k key) eqn:E; cbn.
    + apply String.eqb_eq in E. subst k.
      apply String.eqb_neq in Hne. by rewrite Hne.
    + destruct (String.eqb k key'); [reflexivity|exact IH].
Qed.

(** X26: a settings cache that is not empty is returned without the
    file being read; a load that returns leaves its result in the cache,
    so that every later call returns it whatever the file then holds.  A
    file holding a document that is neither a dictionary nor empty makes
    the first call raise [ValueError] but stays in the cache, so that
    the next call returns that document without any error; an empty
    file raises and leaves the cache empty. *)
Theorem settings_cache_is_sticky (cache : Config.yaml) (read later : Config.ReadOutcome) :
  (cache <> Config.YNull ->
   Config.load_settings cache read = (Config.Return cache, cache))
  /\ (forall d c,
        Config.load_settings Config.YNull read = (Config.Return d, c) ->
        c = d /\ Config.load_settings c later = (Config.Return d, c))
  /\ (forall doc,
        read = Config.ReadOk doc ->
        (forall d, doc <> Config.YDict d) -> doc <> Config.YNull ->
        Config.load_settings Config.YNull read
        = (Config.Raise (Config.ValueError "Settings file must contain a dictionary"), doc)
        /\ Config.load_settings doc later = (Config.Return doc, doc))
  /\ (read = Config.ReadOk Config.YNull ->
      Config.load_settings Config.YNull read
      = (Config.Raise (Config.ValueError "Settings file must contain a dictionary"),
         Config.YNull)).
Proof.
  split; [|split; [|split]].
  - intros Hne. destruct cache; done.
  - intros d c Hload. unfold Config.load_settings in Hload.
    destruct read as [doc|e|e]; try discriminate.
    destruct doc as [|b|q|s|l|d0]; try discriminate.
    destruct (Config.ensure_runner d0) as [d1 raised].
    destruct raised; [discriminate|]. injection Hload as <- <-. done.
  - intros doc -> Hnd Hnn.
    destruct doc as [|b|q|s|l|d]; try done. by destruct (Hnd d).
  - intros ->. reflexivity.
Qed.

(** X27: a settings dictionary whose [runner] entry is absent or is a
    dictionary loads, and in the result [runner] is a dictionary whose
    [loop_interval_seconds] is the value of the file, or [5] when the
    file gives none; no other entry of the document changes.  A [runner]
    entry that is a number, a boolean or null makes the load raise, and
    leaves the document in the cache as it was read, so that the next
    call returns it without the default. *)
Theorem runner_default_interval (d : list (string * Config.yaml))
    (later : Config.ReadOutcome) :
  (forall r,
     (Config.dict_get "runner" d = None /\ r = [])
     \/ Config.dict_get "runner" d = Some (Config.YDict r) ->
     exists d' r',
       Config.load_settings Config.YNull (Config.ReadOk (Config.YDict d))
       = (Config.Return (Config.YDict d'), Config.YDict d')
       /\ Config.dict_get "runner" d' = Some (Config.YDict r')
       /\ Config.dict_get "loop_interval_seconds" r'
          = Some (default (Config.YNum 5) (Config.dict_get "loop_interval_seconds" r))
       /\ forall k, k <> "runner" -> Config.dict_get k d' = Config.dict_get k d)
  /\ (forall v,
        Config.dict_get "runner" d = Some v ->
        Config.py_in "loop_interval_seconds" v = None ->
        Config.load_settings Config.YNull (Config.ReadOk (Config.YDict d))
        = (Config.Raise Config.TypeError, Config.YDict d)
        /\ Config.load_settings (Config.YDict d) later
           = (Config.Return (Config.YDict d), Config.YDict d)).
Proof.
  split.
  - intros r Hr.
    set (d1 := if Config.has_key "runner" d then d
               else Config.dict_set "runner" (Config.YDict []) d).
    assert (H1 : Config.dict_get "runner" d1 = Some (Config.YDict r)
                 /\ forall k, k <> "runner" -> Config.dict_get k d1 = Config.dict_get k d).
    { unfold d1, Config.has_key. destruct Hr as [[Hnone ->]|Hsome].
      - rewrite Hnone. split; [apply dict_get_set_eq|].
        intros k Hk. by apply dict_get_set_ne.
      - rewrite Hsome. done. }
    destruct H1 as [Hrun Hother].
    unfold Config.load_settings, Config.ensure_runner. fold d1. rewrite Hrun.
    cbn [Config.py_in]. unfold Config.has_key.
    destruct (Config.dict_get "loop_interval_seconds" r) as [v|] eqn:Ev.
    + exists d1, r. split; [reflexivity|]. split; [exact Hrun|].
      split; [rewrite Ev; reflexivity|exact Hother].
    + eexists _, _. split; [reflexivity|]. split; [apply dict_get_set_eq|].
      split; [apply dict_get_set_eq|].
      intros k Hk. rewrite dict_get_set_ne by done. by apply Hother.
  - intros v Hv Hin. split; [|reflexivity].
    unfold Config.load_settings, Config.ensure_runner, Config.has_key.
    rewrite Hv. cbn. rewrite Hv, Hin. reflexivity.
Qed.

Lemma settings_cache_is_sticky_witness :
  Config.load_settings Config.YNull (Config.ReadOk (Config.YList []))
  = (Config.Raise (Config.ValueError "Settings file must contain a dictionary"),
     Config.YList [])
  /\ Config.load_settings (Config.YList []) (Config.FileNotFound "settings.yaml")
     = (Config.Return (Config.YList []), Config.YList []).
Proof.
  destruct (settings_cache_is_sticky Config.YNull (Config.ReadOk (Config.YList []))
              (Config.FileNotFound "settings.yaml")) as (_ & _ & Hpoison & _).
  apply (Hpoison (Config.YList [])); done.
Defined.

Lemma runner_default_interval_witness :
  exists d' r',
    Config.load_settings Config.YNull
      (Config.ReadOk (Config.YDict [("risk", Config.YDict [])]))
    = (Config.Return (Config.YDict d'), Config.YDict d')
    /\ Config.dict_get "runner" d' = Some (Config.YDict r')
    /\ Config.dict_get "loop_interval_seconds" r' = Some (Config.YNum 5).
Proof.
  destruct (runner_default_interval [("risk", Config.YDict [])]
              (Config.FileNotFound "settings.yaml")) as [Hok _].
  destruct (Hok []) as (d' & r' & Hload & Hr & Hi & _).
  - left. split; reflexivity.
  - exists d', r'. split; [exact Hload|]. split; [exact Hr|exact Hi].
Defined.
